(** * E57 test-fixture writers: a shallow embedding and its layout properties

  The three Python scripts that assemble synthetic ASTM E57 containers

    - [create_test_e57_files.py]                  (module [E57Files])
    - [test_data/create_test_files.py]            (module [TestFiles])
    - [test_data/create_test_e57_codec_fixed.py]  (module [CodecFixed])

  are embedded as functions over byte lists.  Python integers are [Z],
  [bytes]/[bytearray] values are [list byte], [str] values are [string],
  Python floats are [pyfloat]s (binary64 values, with the sign and payload
  of a NaN kept), and a file opened with ['wb'] is the
  list of bytes written so far, threaded through a small state-and-error
  monad. *)

From Stdlib Require Import ZArith Lia List Ascii String.
From Stdlib.Strings Require Import Byte.
From Stdlib Require Import Floats.
From stdpp Require Import base option list strings pretty.
From stdpp Require Import gmap.

Local Open Scope Z_scope.

(** ** Bytes and [struct.pack] integer formats *)

Module Bytes.

(** The byte whose value is [z mod 256]. *)
Definition byte_of_Z (z : Z) : byte :=
  match Byte.of_N (Z.to_N (z mod 256)) with
  | Some b => b
  | None => x00
  end.

Definition Z_of_byte (b : byte) : Z := Z.of_N (Byte.to_N b).

(** [n] bytes of [v], least significant first. *)
Fixpoint le_encode (n : nat) (v : Z) : list byte :=
  match n with
  | O => []
  | S n' => byte_of_Z v :: le_encode n' (v / 256)
  end.

Fixpoint le_decode (bs : list byte) : Z :=
  match bs with
  | [] => 0
  | b :: bs' => Z_of_byte b + 256 * le_decode bs'
  end.

(** [struct.pack('<I', v)]: raises [struct.error] outside [0, 2^32). *)
Definition pack_I (v : Z) : option (list byte) :=
  if decide (0 <= v < 2 ^ 32) then Some (le_encode 4 v) else None.

(** [struct.pack('<Q', v)]: raises [struct.error] outside [0, 2^64). *)
Definition pack_Q (v : Z) : option (list byte) :=
  if decide (0 <= v < 2 ^ 64) then Some (le_encode 8 v) else None.

(** [buf[lo:hi] = bs] on a bytearray, for [0 <= lo <= hi]: the slice bounds
    are clamped to the buffer, so a short buffer is extended. *)
Definition slice_assign (buf : list byte) (lo hi : nat) (bs : list byte)
  : list byte :=
  take lo buf ++ bs ++ drop hi buf.

(** [struct.pack_into('<Q', buf, off, v)]: raises [struct.error] when the
    value is out of range or fewer than 8 bytes remain at [off]. *)
Definition pack_into_Q (buf : list byte) (off : nat) (v : Z)
  : option (list byte) :=
  bs ← pack_Q v;
  if decide (off + 8 <= length buf)%nat
  then Some (take off buf ++ bs ++ drop (off + 8) buf)
  else None.

(** [b'\x00' * n]: empty when [n <= 0]. *)
Definition zeros (n : Z) : list byte := repeat x00 (Z.to_nat n).

(** [len(b)] as a Python integer. *)
Definition len {A} (l : list A) : Z := Z.of_nat (length l).

(** A bytes literal [b'...'] of ASCII characters. *)
Definition lit (s : string) : list byte := list_byte_of_string s.

(** [s.encode('utf-8')] for the ASCII-only literals of these scripts. *)
Definition encode_utf8 (s : string) : list byte := list_byte_of_string s.

(** Reader's view: the unsigned little-endian integer held in the [n]
    bytes at offset [off], when the buffer is long enough. *)
Definition uint_at (n off : nat) (buf : list byte) : option Z :=
  if decide (off + n <= length buf)%nat
  then Some (le_decode (take n (drop off buf)))
  else None.

Definition u32_at := uint_at 4.
Definition u64_at := uint_at 8.

End Bytes.

(** ** Output files

  A file opened with ['wb'] starts empty and is only appended to; its
  position [f.tell()] is the number of bytes written.  A computation either
  raises (returns [None]) or yields a value and the new file content. *)

Module IO.

Definition file := list byte.

Definition M (A : Type) : Type := file -> option (A * file).

Definition ret {A} (a : A) : M A := fun f => Some (a, f).

Definition bind {A B} (m : M A) (k : A -> M B) : M B :=
  fun f => match m f with
           | Some (a, f') => k a f'
           | None => None
           end.

(** Lift a computation that may raise. *)
Definition lift {A} (o : option A) : M A :=
  fun f => match o with Some a => Some (a, f) | None => None end.

Definition write (bs : list byte) : M unit := fun f => Some (tt, f ++ bs).

Definition tell : M Z := fun f => Some (Bytes.len f, f).

(** [with open(filename, 'wb') as f: body]: the bytes left in the file. *)
Definition with_open {A} (body : M A) : option file :=
  match body [] with
  | Some (_, f) => Some f
  | None => None
  end.

#[export] Instance M_ret : MRet M := @ret.
#[export] Instance M_bind : MBind M := fun A B k m => bind m k.

End IO.
Export (hints) IO.


(** ** Python strings *)

Module Str.

(** The double-quote character.  The XML literals below are written with a
    backquote wherever the Python source has a double quote; [unq] puts the
    double quotes back.  No literal of the scripts contains a backquote. *)
Definition dq : ascii := ascii_of_nat 34.

Fixpoint unq (s : string) : string :=
  match s with
  | EmptyString => EmptyString
  | String c s' => String (if Ascii.eqb c "`" then dq else c) (unq s')
  end.

(** [str(n)] for an integer. *)
Definition str (n : Z) : string := pretty n.

Fixpoint replace_go (old new : string) (skip : nat) (s : string) : string :=
  match s with
  | EmptyString => EmptyString
  | String c s' =>
      match skip with
      | S k => replace_go old new k s'
      | O =>
          if String.prefix old s
          then new +:+ replace_go old new (String.length old - 1) s'
          else String c (replace_go old new O s')
      end
  end.

Fixpoint interleave (new s : string) : string :=
  match s with
  | EmptyString => EmptyString
  | String c s' => String c (new +:+ interleave new s')
  end.

(** [s.replace(old, new)]: every non-overlapping occurrence, left to right;
    an empty [old] matches before every character and at the end. *)
Definition replace (s old new : string) : string :=
  match old with
  | EmptyString => new +:+ interleave new s
  | _ => replace_go old new O s
  end.

End Str.

(** ** Python floats

    A Python float is a binary64 value.  Rocq's [float] has a single NaN, so
    a NaN is kept apart here with the two things [struct.pack] reads from
    it: its sign, and its payload, the 51 fraction bits below the quiet bit.
    [PyNum nan] stands for the NaN of [float('nan')], positive with payload
    0.  Signalling NaNs, which no float operation of Python returns, are not
    represented. *)

Inductive pyfloat :=
| PyNum (x : float)
| PyNaN (negative : bool) (payload : Z).

(** ** [struct.pack] single-precision format

    [struct.pack('<f', x)] converts the binary64 value [x] to binary32 and
    writes its four bytes, least significant first.  A number is rounded to
    nearest, ties to even, and [OverflowError] is raised when a finite [x]
    rounds to an infinity.  A NaN keeps its sign and the upper 22 bits of
    its payload. *)

Module Float32.

Definition prec32 : Z := 24.
Definition emax32 : Z := 128.

(** A binary32 value: a zero, a finite number or an infinity, or a quiet
    NaN with its sign and 22-bit payload. *)
Inductive single :=
| Value (y : spec_float)
| QNaN (negative : bool) (payload : Z).

(** The conversion from binary64 to binary32. *)
Definition to_single (x : pyfloat) : single :=
  match x with
  | PyNaN s p => QNaN s ((p / 2 ^ 29) mod 2 ^ 22)
  | PyNum f =>
      match Prim2SF f with
      | S754_finite s m e => Value (binary_round prec32 emax32 s m e)
      | S754_nan => QNaN false 0
      | y => Value y
      end
  end.

Definition sign_bit (s : bool) : Z := if s then 2 ^ 31 else 0.

(** The 32-bit pattern of a binary32 value. *)
Definition bits_of_single (y : single) : Z :=
  match y with
  | QNaN s p => sign_bit s + 255 * 2 ^ 23 + 2 ^ 22 + p mod 2 ^ 22
  | Value (S754_zero s) => sign_bit s
  | Value (S754_infinity s) => sign_bit s + 255 * 2 ^ 23
  | Value S754_nan => 255 * 2 ^ 23 + 2 ^ 22
  | Value (S754_finite s m e) =>
      if Z.pos m <? 2 ^ 23
      then sign_bit s + Z.pos m
      else sign_bit s + (e + 150) * 2 ^ 23 + (Z.pos m - 2 ^ 23)
  end.

Definition is_finite (x : pyfloat) : bool :=
  match x with
  | PyNum f =>
      match Prim2SF f with
      | S754_finite _ _ _ | S754_zero _ => true
      | _ => false
      end
  | PyNaN _ _ => false
  end.

Definition is_infinity (y : single) : bool :=
  match y with
  | Value (S754_infinity _) => true
  | _ => false
  end.

(** [struct.pack('<f', x)] accepts [x] unless it is finite and rounds to an
    infinity. *)
Definition packable (x : pyfloat) : bool :=
  negb (is_finite x && is_infinity (to_single x)).

(** The four bytes of the binary32 value of [x], least significant
    first. *)
Definition single_bytes (x : pyfloat) : list byte :=
  Bytes.le_encode 4 (bits_of_single (to_single x)).

(** [struct.pack('<f', x)]. *)
Definition pack_f (x : pyfloat) : option (list byte) :=
  if packable x then Some (single_bytes x) else None.

(** [struct.pack('<' + str(n) + 'f', *xs)]: raises [struct.error] unless
    exactly [n] values are given. *)
Definition pack_fs (n : nat) (xs : list pyfloat) : option (list byte) :=
  if decide (length xs = n)
  then bss ← mapM pack_f xs; Some (concat bss)
  else None.





End Float32.

(** ** What a writer leaves behind

    The bytes of the file it wrote, together with the numbers it prints
    about the layout it used. *)

Record written := {
  file_bytes : list byte;
  total_length : Z;      (* the file length the writer planned and printed *)
  xml_offset : Z;
  xml_length : Z;
  binary_offset : Z;     (* where the writer planned the binary section *)
  payload_length : Z
}.

(** ** [create_test_e57_files.py] *)

Module E57Files.
Import Bytes Str.

Definition create_e57_header : option (list byte * Z) :=
  let header := [] in
  let header := header ++ lit "ASTM-E57" in
  b ← pack_I 1; let header := header ++ b in
  b ← pack_I 0; let header := header ++ b in
  b ← pack_Q 0; let header := header ++ b in
  let xml_offset := 48 in
  b ← pack_Q xml_offset; let header := header ++ b in
  b ← pack_Q 0; let header := header ++ b in
  b ← pack_Q 1024; let header := header ++ b in
  Some (header, xml_offset).

Definition create_compressed_vector_xml : list byte :=
  let xml_content :=
    unq "<?xml version=`1.0` encoding=`UTF-8`?>
<e57Root type=`Structure` xmlns=`http://www.astm.org/COMMIT/E57/2010-e57-v1.0`>
    <formatName type=`String`><![CDATA[ASTM E57 3D Imaging Data File]]></formatName>
    <guid type=`String`><![CDATA[{12345678-1234-5678-9ABC-123456789ABC}]]></guid>
    <versionMajor type=`Integer`>1</versionMajor>
    <versionMinor type=`Integer`>0</versionMinor>
    <e57LibraryVersion type=`String`><![CDATA[Test Library 1.0]]></e57LibraryVersion>
    <coordinateMetadata type=`String`><![CDATA[Test coordinate metadata]]></coordinateMetadata>
    <data3D type=`Vector` allowHeterogeneousChildren=`1`>
        <vectorChild type=`Structure`>
            <guid type=`String`><![CDATA[{87654321-4321-8765-CBA9-987654321CBA}]]></guid>
            <name type=`String`><![CDATA[Test Point Cloud]]></name>
            <description type=`String`><![CDATA[Test point cloud with CompressedVector]]></description>
            <points type=`CompressedVector` fileOffset=`" +:+ str (48 + 1200) +:+ unq "` recordCount=`3`>
                <prototype type=`Structure`>
                    <cartesianX type=`Float` precision=`single` minimum=`-1000.0` maximum=`1000.0`/>
                    <cartesianY type=`Float` precision=`single` minimum=`-1000.0` maximum=`1000.0`/>
                    <cartesianZ type=`Float` precision=`single` minimum=`-1000.0` maximum=`1000.0`/>
                </prototype>
                <codecs type=`Vector` allowHeterogeneousChildren=`1`>
                    <vectorChild type=`CompressedVectorNode` recordCount=`3` fileOffset=`" +:+ str (48 + 1200) +:+ unq "`>
                        <prototype type=`Structure`>
                            <cartesianX type=`Float` precision=`single`/>
                            <cartesianY type=`Float` precision=`single`/>
                            <cartesianZ type=`Float` precision=`single`/>
                        </prototype>
                    </vectorChild>
                </codecs>
            </points>
        </vectorChild>
    </data3D>
</e57Root>" in
  encode_utf8 xml_content.

Definition create_malformed_xml : list byte :=
  let xml_content :=
    unq "<?xml version=`1.0` encoding=`UTF-8`?>
<e57Root type=`Structure` xmlns=`http://www.astm.org/COMMIT/E57/2010-e57-v1.0`>
    <formatName type=`String`><![CDATA[ASTM E57 3D Imaging Data File]]></formatName>
    <data3D type=`Vector` allowHeterogeneousChildren=`1`>
        <vectorChild type=`Structure`>
            <points type=`CompressedVector` fileOffset=`" +:+ str (48 + 800) +:+ unq "` recordCount=`invalid_count`>
                <prototype type=`Structure`>
                    <cartesianX type=`Float` precision=`single`/>
                    <!-- Missing cartesianY and cartesianZ -->
                </prototype>
                <codecs type=`Vector` allowHeterogeneousChildren=`1`>
                    <!-- Missing CompressedVectorNode -->
                </codecs>
            </points>
        </vectorChild>
    </data3D>
</e57Root>" in
  encode_utf8 xml_content.

(** The loop of [create_point_data] over its list of coordinates. *)
Fixpoint extend_packed (data : list byte) (points : list pyfloat)
  : option (list byte) :=
  match points with
  | [] => Some data
  | point :: rest =>
      b ← Float32.pack_f point;
      extend_packed (data ++ b) rest
  end.

Definition points : list pyfloat :=
  [ PyNum 1.0; PyNum 2.0; PyNum 3.0;
    PyNum 4.0; PyNum 5.0; PyNum 6.0;
    PyNum 7.0; PyNum 8.0; PyNum 9.0 ]%float.

Definition create_point_data : option (list byte) :=
  extend_packed [] points.

(** The header update of [create_e57_file]: the two slice assignments. *)
Definition update_header (header : list byte) (file_length xml_length : Z)
  : option (list byte) :=
  b ← pack_Q file_length;
  let header := slice_assign header 16 24 b in
  b ← pack_Q xml_length;
  let header := slice_assign header 32 40 b in
  Some header.

Definition create_e57_file (xml_content point_data : list byte)
  : option written :=
  '(header, xml_offset) ← create_e57_header;
  let xml_length := len xml_content in
  let binary_offset := xml_offset + xml_length in
  let binary_offset :=
    if decide (binary_offset mod 8 ≠ 0)
    then binary_offset + (8 - binary_offset mod 8)
    else binary_offset in
  let file_length := binary_offset + len point_data in
  header ← update_header header file_length xml_length;
  f ← IO.with_open
        (IO.write header;;
         IO.write xml_content;;
         current_pos ← IO.tell;
         (if decide (current_pos < binary_offset)
          then IO.write (zeros (binary_offset - current_pos))
          else mret tt);;
         IO.write point_data);
  Some {| file_bytes := f; total_length := file_length;
          xml_offset := xml_offset; xml_length := xml_length;
          binary_offset := binary_offset;
          payload_length := len point_data |}.

(** The three files written by [main]. *)
Definition compressedvector_uncompressed_data : option written :=
  point_data ← create_point_data;
  create_e57_file create_compressed_vector_xml point_data.

Definition malformed_compressedvector : option written :=
  point_data ← create_point_data;
  create_e57_file create_malformed_xml point_data.

Definition test_real_points : option written :=
  point_data ← create_point_data;
  create_e57_file create_compressed_vector_xml point_data.

End E57Files.

(** ** [test_data/create_test_files.py] *)

Module TestFiles.
Import Bytes Str.

Definition create_e57_header : option (list byte) :=
  let header := [] in
  let header := header ++ lit "ASTM-E57" in
  b ← pack_I 1; let header := header ++ b in
  b ← pack_I 0; let header := header ++ b in
  b ← pack_Q 0; let header := header ++ b in
  let xml_offset := 48 in
  b ← pack_Q xml_offset; let header := header ++ b in
  b ← pack_Q 0; let header := header ++ b in
  b ← pack_Q 1024; let header := header ++ b in
  Some header.

Definition create_compressed_vector_xml : list byte :=
  let xml :=
    unq "<?xml version=`1.0` encoding=`UTF-8`?>
<e57Root type=`Structure`>
    <formatName type=`String`>ASTM E57 3D Imaging Data File</formatName>
    <guid type=`String`>{12345678-1234-1234-1234-123456789012}</guid>
    <versionMajor type=`Integer`>1</versionMajor>
    <versionMinor type=`Integer`>0</versionMinor>
    <e57LibraryVersion type=`String`>Sprint1.2-Test</e57LibraryVersion>
    <coordinateMetadata type=`String`>Test coordinate system</coordinateMetadata>
    <data3D type=`Vector` allowHeterogeneousChildren=`1`>
        <vectorChild type=`Structure`>
            <guid type=`String`>{87654321-4321-4321-4321-210987654321}</guid>
            <name type=`String`>Test CompressedVector Scan</name>
            <description type=`String`>Test scan with CompressedVector structure</description>
            <points type=`CompressedVector` fileOffset=`0` recordCount=`3`>
                <prototype type=`Structure`>
                    <cartesianX type=`Float` precision=`single`/>
                    <cartesianY type=`Float` precision=`single`/>
                    <cartesianZ type=`Float` precision=`single`/>
                </prototype>
                <codecs type=`Vector` allowHeterogeneousChildren=`1`>
                    <vectorChild type=`CompressedVectorNode` recordCount=`3` fileOffset=`2048`>
                        <prototype type=`Structure`>
                            <cartesianX type=`Float` precision=`single`/>
                            <cartesianY type=`Float` precision=`single`/>
                            <cartesianZ type=`Float` precision=`single`/>
                        </prototype>
                    </vectorChild>
                </codecs>
            </points>
        </vectorChild>
    </data3D>
</e57Root>" in
  encode_utf8 xml.

Definition create_malformed_compressed_vector_xml : list byte :=
  let xml :=
    unq "<?xml version=`1.0` encoding=`UTF-8`?>
<e57Root type=`Structure`>
    <formatName type=`String`>ASTM E57 3D Imaging Data File</formatName>
    <guid type=`String`>{12345678-1234-1234-1234-123456789012}</guid>
    <versionMajor type=`Integer`>1</versionMajor>
    <versionMinor type=`Integer`>0</versionMinor>
    <data3D type=`Vector` allowHeterogeneousChildren=`1`>
        <vectorChild type=`Structure`>
            <guid type=`String`>{87654321-4321-4321-4321-210987654321}</guid>
            <name type=`String`>Test Malformed CompressedVector</name>
            <points type=`CompressedVector` fileOffset=`0`>
                <prototype type=`Structure`>
                    <cartesianX type=`Float` precision=`single`/>
                    <cartesianY type=`Float` precision=`single`/>
                    <cartesianZ type=`Float` precision=`single`/>
                </prototype>
                <codecs type=`Vector` allowHeterogeneousChildren=`1`>
                    <vectorChild type=`CompressedVectorNode`>
                        <!-- Missing recordCount attribute -->
                        <prototype type=`Structure`>
                            <cartesianX type=`Float` precision=`single`/>
                            <cartesianY type=`Float` precision=`single`/>
                            <!-- Missing cartesianZ -->
                        </prototype>
                    </vectorChild>
                </codecs>
            </points>
        </vectorChild>
    </data3D>
</e57Root>" in
  encode_utf8 xml.

(** The loop of [create_point_data] over its list of triples. *)
Fixpoint extend_packed (data : list byte)
    (points : list (pyfloat * pyfloat * pyfloat))
  : option (list byte) :=
  match points with
  | [] => Some data
  | (x, y, z) :: rest =>
      b ← Float32.pack_fs 3 [x; y; z];
      extend_packed (data ++ b) rest
  end.

Definition points : list (pyfloat * pyfloat * pyfloat) :=
  [ (PyNum 1.0, PyNum 2.0, PyNum 3.0);
    (PyNum 4.0, PyNum 5.0, PyNum 6.0);
    (PyNum 7.0, PyNum 8.0, PyNum 9.0) ]%float.

Definition create_point_data : option (list byte) :=
  extend_packed [] points.

(** The header update of [create_e57_file]: the two [struct.pack_into]
    calls, at the offsets the script passes. *)
Definition update_header (header : list byte) (total_length xml_length : Z)
  : option (list byte) :=
  header ← pack_into_Q header 24 total_length;
  header ← pack_into_Q header 40 xml_length;
  Some header.

Definition create_e57_file (xml_data point_data : list byte)
  : option written :=
  header ← create_e57_header;
  let xml_offset := len header in
  let xml_length := len xml_data in
  let binary_offset := xml_offset + xml_length in
  let padding_needed := (1024 - (binary_offset mod 1024)) mod 1024 in
  let padding := zeros padding_needed in
  let binary_offset := binary_offset + padding_needed in
  let total_length := binary_offset + len point_data in
  header ← update_header header total_length xml_length;
  f ← IO.with_open
        (IO.write header;;
         IO.write xml_data;;
         IO.write padding;;
         IO.write point_data);
  Some {| file_bytes := f; total_length := total_length;
          xml_offset := xml_offset; xml_length := xml_length;
          binary_offset := binary_offset;
          payload_length := len point_data |}.

(** The two files written by [main]. *)
Definition compressedvector_uncompressed_data : option written :=
  point_data ← create_point_data;
  create_e57_file create_compressed_vector_xml point_data.

Definition malformed_compressedvector : option written :=
  point_data ← create_point_data;
  create_e57_file create_malformed_compressed_vector_xml point_data.

End TestFiles.

(** ** [test_data/create_test_e57_codec_fixed.py] *)

Module CodecFixed.
Import Bytes Str.

(** The f-string of [create_e57_with_bitpack_codec], as a function of the
    [binary_offset] it interpolates. *)
Definition bitpack_xml (binary_offset : Z) : string :=
  unq "<?xml version=`1.0` encoding=`UTF-8`?>
<e57Root type=`Structure` xmlns=`http://www.astm.org/COMMIT/E57/2010-e57-v1.0`>
    <formatName type=`String`>ASTM E57 3D Imaging Data File</formatName>
    <guid type=`String`>{12345678-1234-1234-1234-123456789ABC}</guid>
    <versionMajor type=`Integer`>1</versionMajor>
    <versionMinor type=`Integer`>0</versionMinor>
    <e57LibraryVersion type=`String`>Sprint2.1-Test</e57LibraryVersion>
    <coordinateMetadata type=`String`>Test coordinate system</coordinateMetadata>
    <data3D type=`Vector` allowHeterogeneousChildren=`1`>
        <vectorChild type=`Structure`>
            <guid type=`String`>{87654321-4321-4321-4321-210987654321}</guid>
            <name type=`String`>Test Point Cloud</name>
            <description type=`String`>Test point cloud data for Sprint 2.1</description>
            <points type=`CompressedVector` fileOffset=`" +:+ str binary_offset +:+ unq "` recordCount=`3`>
                <prototype type=`Structure`>
                    <cartesianX type=`Float` precision=`single`/>
                    <cartesianY type=`Float` precision=`single`/>
                    <cartesianZ type=`Float` precision=`single`/>
                </prototype>
                <codecs type=`Vector`>
                    <vector type=`CompressedVectorNode`>
                        <bitPackCodec type=`Structure`/>
                        <recordCount type=`Integer`>3</recordCount>
                        <binarySection type=`String`>test_binary_section</binarySection>
                    </vector>
                </codecs>
            </points>
        </vectorChild>
    </data3D>
</e57Root>".

Definition create_e57_with_bitpack_codec : option written :=
  let signature := lit "ASTM-E57" in
  let major_version := 1 in
  let minor_version := 0 in
  let file_physical_length := 0 in
  let xml_offset := 48 in
  let xml_length := 0 in
  let page_size := 1024 in
  let estimated_xml_size := 1600 in
  let binary_offset := xml_offset + estimated_xml_size in
  let binary_offset := ((binary_offset + page_size - 1) / page_size) * page_size in
  let xml_content := bitpack_xml binary_offset in
  let xml_bytes := encode_utf8 xml_content in
  let xml_length := len xml_bytes in
  point_data ← Float32.pack_fs 9
                 [ PyNum 1.0; PyNum 2.0; PyNum 3.0;
                   PyNum 4.0; PyNum 5.0; PyNum 6.0;
                   PyNum 7.0; PyNum 8.0; PyNum 9.0 ]%float;
  let binary_offset := xml_offset + xml_length in
  let binary_offset := ((binary_offset + page_size - 1) / page_size) * page_size in
  let file_physical_length := binary_offset + len point_data in
  let xml_content :=
    replace xml_content
      (unq "fileOffset=`" +:+ str (xml_offset + estimated_xml_size) +:+ unq "`")
      (unq "fileOffset=`" +:+ str binary_offset +:+ unq "`") in
  let xml_bytes := encode_utf8 xml_content in
  let xml_length := len xml_bytes in
  f ← IO.with_open
        (IO.write signature;;
         b ← IO.lift (pack_I major_version); IO.write b;;
         b ← IO.lift (pack_I minor_version); IO.write b;;
         b ← IO.lift (pack_Q file_physical_length); IO.write b;;
         b ← IO.lift (pack_Q xml_offset); IO.write b;;
         b ← IO.lift (pack_Q xml_length); IO.write b;;
         b ← IO.lift (pack_Q page_size); IO.write b;;
         IO.write xml_bytes;;
         current_pos ← IO.tell;
         let padding_needed := binary_offset - current_pos in
         (if decide (padding_needed > 0)
          then IO.write (zeros padding_needed)
          else mret tt);;
         IO.write point_data);
  Some {| file_bytes := f; total_length := file_physical_length;
          xml_offset := xml_offset; xml_length := xml_length;
          binary_offset := binary_offset;
          payload_length := len point_data |}.

Definition unsupported_xml : string :=
  unq "<?xml version=`1.0` encoding=`UTF-8`?>
<e57Root type=`Structure` xmlns=`http://www.astm.org/COMMIT/E57/2010-e57-v1.0`>
    <formatName type=`String`>ASTM E57 3D Imaging Data File</formatName>
    <data3D type=`Vector` allowHeterogeneousChildren=`1`>
        <vectorChild type=`Structure`>
            <points type=`CompressedVector` recordCount=`3`>
                <prototype type=`Structure`>
                    <cartesianX type=`Float` precision=`single`/>
                    <cartesianY type=`Float` precision=`single`/>
                    <cartesianZ type=`Float` precision=`single`/>
                </prototype>
                <codecs type=`Vector`>
                    <vector type=`CompressedVectorNode`>
                        <zLibCodec type=`Structure`/>
                        <recordCount type=`Integer`>3</recordCount>
                        <binarySection type=`String`>test_binary_section</binarySection>
                    </vector>
                </codecs>
            </points>
        </vectorChild>
    </data3D>
</e57Root>".

(** This writer emits a header and the XML only, and prints no layout. *)
Definition create_e57_with_unsupported_codec : option IO.file :=
  let xml_content := unsupported_xml in
  let signature := lit "ASTM-E57" in
  let xml_bytes := encode_utf8 xml_content in
  IO.with_open
    (IO.write signature;;
     b ← IO.lift (pack_I 1); IO.write b;;
     b ← IO.lift (pack_I 0); IO.write b;;
     b ← IO.lift (pack_Q (48 + len xml_bytes)); IO.write b;;
     b ← IO.lift (pack_Q 48); IO.write b;;
     b ← IO.lift (pack_Q (len xml_bytes)); IO.write b;;
     b ← IO.lift (pack_Q 1024); IO.write b;;
     IO.write xml_bytes).

End CodecFixed.

(** ** Reading the XML section back

    A small reader for the XML subset the scripts emit: a declaration,
    comments, CDATA sections, character data, and elements with
    double-quoted attributes.  It accepts only documents that are
    well-formed: every element is closed by the matching end tag or is
    self-closing, attribute names are not repeated within a tag, comments
    hold no double hyphen, and exactly one root element is present. *)

Module Xml.
Import Str.

#[warnings="-register-all"]
Inductive node :=
| Elem (tag : string) (attrs : list (string * string)) (children : list node)
| Text (s : string)
| CData (s : string)
| Comment (s : string).

Inductive token :=
| TDecl (s : string)
| TComment (s : string)
| TCData (s : string)
| TText (s : string)
| TOpen (tag : string) (attrs : list (string * string))
| TEmpty (tag : string) (attrs : list (string * string))
| TClose (tag : string).

Definition between (lo hi : nat) (c : ascii) : bool :=
  let n := nat_of_ascii c in Nat.leb lo n && Nat.leb n hi.

Definition is_space (c : ascii) : bool :=
  between 32 32 c || between 9 10 c || between 13 13 c.

Definition is_name_char (c : ascii) : bool :=
  between 65 90 c || between 97 122 c || between 48 58 c
  || between 45 46 c || between 95 95 c.

Definition is_empty (s : string) : bool :=
  match s with EmptyString => true | _ => false end.

Fixpoint sdrop (n : nat) (s : string) : string :=
  match n, s with
  | S n', String _ s' => sdrop n' s'
  | _, _ => s
  end.

Fixpoint span (p : ascii -> bool) (s : string) : string * string :=
  match s with
  | EmptyString => (EmptyString, EmptyString)
  | String c s' =>
      if p c then let '(a, b) := span p s' in (String c a, b)
      else (EmptyString, s)
  end.

Fixpoint all_chars (p : ascii -> bool) (s : string) : bool :=
  match s with
  | EmptyString => true
  | String c s' => p c && all_chars p s'
  end.

(** The text before and after the first occurrence of [pat]. *)
Fixpoint find_sub (pat s : string) : option (string * string) :=
  if String.prefix pat s
  then Some (EmptyString, sdrop (String.length pat) s)
  else match s with
       | EmptyString => None
       | String c s' =>
           match find_sub pat s' with
           | Some (b, a) => Some (String c b, a)
           | None => None
           end
       end.

Definition contains (pat s : string) : bool :=
  match find_sub pat s with Some _ => true | None => false end.

Definition starts_with_space (s : string) : bool :=
  match s with
  | EmptyString => true
  | String c _ => is_space c
  end.

Fixpoint parse_attrs (fuel : nat) (s : string)
  : option (list (string * string)) :=
  match fuel with
  | O => None
  | S fuel' =>
      let s := snd (span is_space s) in
      if is_empty s then Some []
      else
        let '(name, r) := span is_name_char s in
        if is_empty name then None
        else match r with
             | String eq (String q r') =>
                 if Ascii.eqb eq "=" && Ascii.eqb q dq then
                   '(v, rest) ← find_sub (String dq EmptyString) r';
                   if contains "<" v || negb (starts_with_space rest)
                   then None
                   else
                     attrs ← parse_attrs fuel' rest;
                     if bool_decide (name ∈ attrs.*1) then None
                     else Some ((name, v) :: attrs)
                 else None
             | _ => None
             end
  end.

(** The inside of a start tag: a name, then attributes, then an optional
    closing slash. *)
Definition parse_elem (mk : string -> list (string * string) -> token)
    (body : string) : option token :=
  let '(name, r) := span is_name_char body in
  if is_empty name || negb (starts_with_space r) then None
  else
    attrs ← parse_attrs (S (String.length r)) r;
    Some (mk name attrs).

Definition parse_tag (body : string) : option token :=
  match String.rev body with
  | String "/" rb => parse_elem TEmpty (String.rev rb)
  | _ => parse_elem TOpen body
  end.

Fixpoint tokenize (fuel : nat) (s : string) : option (list token) :=
  match fuel with
  | O => None
  | S fuel' =>
      match s with
      | EmptyString => Some []
      | String c s' =>
          if String.prefix "<?" s then
            '(b, r) ← find_sub "?>" (sdrop 2 s);
            ts ← tokenize fuel' r; Some (TDecl b :: ts)
          else if String.prefix "<!--" s then
            '(b, r) ← find_sub "-->" (sdrop 4 s);
            if contains "--" b then None
            else ts ← tokenize fuel' r; Some (TComment b :: ts)
          else if String.prefix "<![CDATA[" s then
            '(b, r) ← find_sub "]]>" (sdrop 9 s);
            ts ← tokenize fuel' r; Some (TCData b :: ts)
          else if String.prefix "</" s then
            '(b, r) ← find_sub ">" (sdrop 2 s);
            let '(name, sp) := span is_name_char b in
            if is_empty name || negb (all_chars is_space sp) then None
            else ts ← tokenize fuel' r; Some (TClose name :: ts)
          else if Ascii.eqb c "<" then
            '(b, r) ← find_sub ">" s';
            t ← parse_tag b;
            ts ← tokenize fuel' r; Some (t :: ts)
          else
            let '(t, r) := span (fun c => negb (Ascii.eqb c "<")) s in
            ts ← tokenize fuel' r; Some (TText t :: ts)
      end
  end.

(** An element still open: its tag, attributes, and the children read so
    far, latest first. *)
Definition frame : Type := string * list (string * string) * list node.

Definition add_child (n : node) (stack : list frame) (top : list node)
  : list frame * list node :=
  match stack with
  | (t, a, ch) :: rest => ((t, a, n :: ch) :: rest, top)
  | [] => ([], n :: top)
  end.

Fixpoint build (toks : list token) (stack : list frame) (top : list node)
  : option (list node) :=
  match toks with
  | [] => if decide (stack = []) then Some (rev top) else None
  | tok :: toks' =>
      match tok with
      | TDecl _ => build toks' stack top
      | TComment s =>
          let '(st, tp) := add_child (Comment s) stack top in build toks' st tp
      | TCData s =>
          let '(st, tp) := add_child (CData s) stack top in build toks' st tp
      | TText s =>
          let '(st, tp) := add_child (Text s) stack top in build toks' st tp
      | TEmpty t a =>
          let '(st, tp) := add_child (Elem t a []) stack top in build toks' st tp
      | TOpen t a => build toks' ((t, a, []) :: stack) top
      | TClose t =>
          match stack with
          | (t', a, ch) :: rest =>
              if String.eqb t t' then
                let '(st, tp) := add_child (Elem t a (rev ch)) rest top in
                build toks' st tp
              else None
          | [] => None
          end
      end
  end.

Definition is_elem (n : node) : bool :=
  match n with Elem _ _ _ => true | _ => false end.

Definition is_misc (n : node) : bool :=
  match n with
  | Comment _ => true
  | Text s => all_chars is_space s
  | _ => false
  end.

(** A declaration may only open the document. *)
Definition decl_first (toks : list token) : bool :=
  forallb (fun t => match t with TDecl _ => false | _ => true end)
          (tail toks).

(** The root element of a well-formed document. *)
Definition parse (s : string) : option node :=
  toks ← tokenize (S (String.length s)) s;
  if decl_first toks then
    top ← build toks [] [];
    match filter (fun n => is_elem n = true) top with
    | [root] => if forallb (fun n => is_elem n || is_misc n) top
                then Some root else None
    | _ => None
    end
  else None.

Definition well_formed (s : string) : bool :=
  match parse s with Some _ => true | None => false end.

Definition tag_of (n : node) : string :=
  match n with Elem t _ _ => t | _ => EmptyString end.

Definition attrs_of (n : node) : list (string * string) :=
  match n with Elem _ a _ => a | _ => [] end.

Definition children_of (n : node) : list node :=
  match n with Elem _ _ ch => ch | _ => [] end.

Fixpoint assoc (k : string) (l : list (string * string)) : option string :=
  match l with
  | [] => None
  | (k', v) :: l' => if String.eqb k k' then Some v else assoc k l'
  end.

Definition attr (k : string) (n : node) : option string :=
  assoc k (attrs_of n).

(** The child elements of a node, and those with a given tag. *)
Definition child_elems (n : node) : list node :=
  filter (fun c => is_elem c = true) (children_of n).

Definition children_named (t : string) (n : node) : list node :=
  filter (fun c => tag_of c = t) (child_elems n).

(** A node and everything below it, in document order. *)
Fixpoint descendants (n : node) : list node :=
  n :: match n with
       | Elem _ _ ch => flat_map descendants ch
       | _ => []
       end.

(** The elements declared with [type="CompressedVector"]. *)
Definition compressed_vectors (root : node) : list node :=
  filter (fun n => attr "type" n = Some "CompressedVector")
         (descendants root).

End Xml.

(** The XML section of a written file, decoded as text. *)
Definition xml_section (w : written) : string :=
  string_of_list_byte
    (take (Z.to_nat (xml_length w)) (drop (Z.to_nat (xml_offset w)) (file_bytes w))).

(** ** The specification's layout vocabulary *)

Module Spec.

(** Serialized size of the container header. *)
Definition headerSize : Z := 48.

(** [roundUp(v, unit) = v + ((unit - (v mod unit)) mod unit)]. *)
Definition roundUp (v unit : Z) : Z := v + ((unit - (v mod unit)) mod unit).

(** The four length and offset fields of a header, as a reader decodes
    them from the first 48 bytes of a file. *)
Record fields := {
  filePhysicalLength : Z;
  xmlOffset : Z;
  xmlLength : Z;
  pageSize : Z
}.

Definition decode_fields (file : list byte) : option fields :=
  fl ← Bytes.u64_at 16 file;
  xo ← Bytes.u64_at 24 file;
  xl ← Bytes.u64_at 32 file;
  ps ← Bytes.u64_at 40 file;
  Some {| filePhysicalLength := fl; xmlOffset := xo;
          xmlLength := xl; pageSize := ps |}.

(** The coordinates of a list of points, in input order. *)
Definition coordinates (pts : list (pyfloat * pyfloat * pyfloat))
  : list pyfloat :=
  flat_map (fun p => [p.1.1; p.1.2; p.2]) pts.

(** The layout plan re-derived from decoded fields:
    [binaryOffset = roundUp(xmlOffset + xmlLength, alignmentUnit)] and
    [totalLength = filePhysicalLength]. *)
Definition rederive (alignmentUnit : Z) (h : fields) : Z * Z :=
  (roundUp (xmlOffset h + xmlLength h) alignmentUnit, filePhysicalLength h).

(** A writer's result lays the file out as planned: a 48-byte header, the
    XML bytes verbatim, zero bytes up to the binary offset, then the
    payload, [binaryOffset + payload length] bytes in all. *)
Definition emitted_as_planned (xml pd : list byte) (r : option written)
  : Prop :=
  exists w header,
    r = Some w
    /\ length header = 48%nat
    /\ file_bytes w =
         header ++ xml
           ++ Bytes.zeros (binary_offset w - (headerSize + Bytes.len xml))
           ++ pd
    /\ Bytes.len (header ++ xml
           ++ Bytes.zeros (binary_offset w - (headerSize + Bytes.len xml)))
         = binary_offset w
    /\ total_length w = binary_offset w + Bytes.len pd
    /\ Bytes.len (file_bytes w) = total_length w.



End Spec.

(** ** The three alignment computations of the scripts

    Each is the script's expression with its alignment constant taken as
    the parameter [unit]: 8 in [create_test_e57_files.py], 1024 in
    [create_test_files.py], [page_size] in
    [create_test_e57_codec_fixed.py]. *)

Module Layout.

(** [if binary_offset % 8 != 0: binary_offset += 8 - (binary_offset % 8)] *)
Definition align_conditional (unit binary_offset : Z) : Z :=
  if decide (binary_offset mod unit ≠ 0)
  then binary_offset + (unit - binary_offset mod unit)
  else binary_offset.

(** [padding_needed = (1024 - (binary_offset % 1024)) % 1024;
     binary_offset += padding_needed] *)
Definition align_padding (unit binary_offset : Z) : Z :=
  let padding_needed := (unit - (binary_offset mod unit)) mod unit in
  binary_offset + padding_needed.

(** [binary_offset = ((binary_offset + page_size - 1) // page_size) * page_size] *)
Definition align_ceiling (unit binary_offset : Z) : Z :=
  ((binary_offset + unit - 1) / unit) * unit.

End Layout.

(** ** The file system the scripts write to

    Relative paths only, as the scripts use them: a set of directories and
    a map from file paths to contents, both relative to the working
    directory, which always exists. *)

Module FS.

Record state := {
  dirs : gset string;
  files : gmap string (list byte)
}.

Definition empty : state := {| dirs := ∅; files := ∅ |}.

Definition is_slash (c : ascii) : bool := Ascii.eqb c "/".

(** [os.path.dirname(path)] on POSIX: the text before the last slash,
    without trailing slashes unless it consists of slashes only. *)
Definition dirname (path : string) : string :=
  match Xml.find_sub "/" (String.rev path) with
  | None => EmptyString
  | Some (_, before_rev) =>
      let head_rev := String "/" before_rev in
      if Xml.all_chars is_slash head_rev then String.rev head_rev
      else String.rev (snd (Xml.span is_slash head_rev))
  end.

(** [os.makedirs(name, exist_ok=True)] for a name without a slash, the only
    kind the scripts pass: an existing directory is accepted, an existing
    file of that name raises [FileExistsError]. *)
Definition makedirs (name : string) (s : state) : option state :=
  if decide (name ∈ dom (files s)) then None
  else Some {| dirs := {[name]} ∪ dirs s; files := files s |}.

(** [with open(path, 'wb') as f: f.write(content)]: the parent directory
    must exist ([FileNotFoundError]) and the path must not be a directory
    ([IsADirectoryError]); an existing file is replaced. *)
Definition write_file (path : string) (content : list byte) (s : state)
  : option state :=
  let parent := dirname path in
  if decide ((parent = EmptyString \/ parent ∈ dirs s) /\ path ∉ dirs s)
  then Some {| dirs := dirs s; files := <[path := content]> (files s) |}
  else None.

End FS.

(** ** The scripts as programs over the file system

    Each writer computes the bytes as above and stores them under the file
    name it is given or has built in. *)

Module Scripts.

(** [create_test_e57_files.py]: [create_e57_file(filename, ...)]. *)
Definition e57_create_e57_file (filename : string)
    (xml_content point_data : list byte) (s : FS.state) : option FS.state :=
  w ← E57Files.create_e57_file xml_content point_data;
  FS.write_file filename (file_bytes w) s.

(** [create_test_e57_files.py]: [main()]. *)
Definition e57_main (s : FS.state) : option FS.state :=
  s ← FS.makedirs "test_data" s;
  let xml_content := E57Files.create_compressed_vector_xml in
  point_data ← E57Files.create_point_data;
  s ← e57_create_e57_file "test_data/compressedvector_uncompressed_data.e57"
        xml_content point_data s;
  let malformed_xml := E57Files.create_malformed_xml in
  s ← e57_create_e57_file "test_data/malformed_compressedvector.e57"
        malformed_xml point_data s;
  e57_create_e57_file "test_data/test_real_points.e57"
    xml_content point_data s.

(** [test_data/create_test_files.py]: [create_e57_file(filename, ...)]. *)
Definition tf_create_e57_file (filename : string)
    (xml_data point_data : list byte) (s : FS.state) : option FS.state :=
  w ← TestFiles.create_e57_file xml_data point_data;
  FS.write_file filename (file_bytes w) s.

(** [test_data/create_test_files.py]: [main()]. *)
Definition tf_main (s : FS.state) : option FS.state :=
  s ← FS.makedirs "test_data" s;
  let xml_data := TestFiles.create_compressed_vector_xml in
  point_data ← TestFiles.create_point_data;
  s ← tf_create_e57_file "test_data/compressedvector_uncompressed_data.e57"
        xml_data point_data s;
  let malformed_xml := TestFiles.create_malformed_compressed_vector_xml in
  tf_create_e57_file "test_data/malformed_compressedvector.e57"
    malformed_xml point_data s.

(** [test_data/create_test_e57_codec_fixed.py]:
    [create_e57_with_bitpack_codec()], which creates the directory of its
    file name first. *)
Definition cf_bitpack (s : FS.state) : option FS.state :=
  w ← CodecFixed.create_e57_with_bitpack_codec;
  let filename := "test_data/e57_bitpack_codec_test_fixed.e57" in
  s ← FS.makedirs (FS.dirname filename) s;
  FS.write_file filename (file_bytes w) s.

(** [create_e57_with_unsupported_codec()], which opens its file without
    creating the directory. *)
Definition cf_unsupported (s : FS.state) : option FS.state :=
  f ← CodecFixed.create_e57_with_unsupported_codec;
  let filename := "test_data/e57_unsupported_codec_test_fixed.e57" in
  FS.write_file filename f s.

(** The [__main__] block of [create_test_e57_codec_fixed.py]. *)
Definition cf_main (s : FS.state) : option FS.state :=
  s ← cf_bitpack s;
  cf_unsupported s.

End Scripts.

(** * Properties *)

(** ** Little-endian integers *)

Section BytesFacts.
Import Bytes.

Lemma Z_of_byte_of_Z (z : Z) : Z_of_byte (byte_of_Z z) = z mod 256.
Proof.
  unfold Z_of_byte, byte_of_Z.
  assert (Hr : 0 <= z mod 256 < 256) by (apply Z.mod_pos_bound; lia).
  destruct (Byte.of_N (Z.to_N (z mod 256))) as [b|] eqn:E.
  - apply Byte.to_of_N in E. rewrite E. lia.
  - apply Byte.of_N_None_iff in E. lia.
Qed.

Lemma Z_of_byte_range (b : byte) : 0 <= Z_of_byte b < 256.
Proof.
  unfold Z_of_byte. pose proof (Byte.to_N_bounded b). lia.
Qed.

Lemma le_encode_length (n : nat) (v : Z) : length (le_encode n v) = n.
Proof.
  revert v. induction n as [|n IH]; intros v; simpl; [done|]. by rewrite IH.
Qed.

Lemma le_decode_encode (n : nat) (v : Z) :
  le_decode (le_encode n v) = v mod 256 ^ Z.of_nat n.
Proof.
  revert v. induction n as [|n IH]; intros v.
  - simpl. by rewrite Z.mod_1_r.
  - cbn [le_encode le_decode]. rewrite IH, Z_of_byte_of_Z.
    rewrite Nat2Z.inj_succ, Z.pow_succ_r by lia.
    rewrite Z.rem_mul_r by lia. reflexivity.
Qed.

Lemma le_decode_range (bs : list byte) :
  0 <= le_decode bs < 256 ^ Z.of_nat (length bs).
Proof.
  induction bs as [|b bs IH].
  - simpl. lia.
  - cbn [le_decode length]. pose proof (Z_of_byte_range b).
    rewrite Nat2Z.inj_succ, Z.pow_succ_r by lia. lia.
Qed.

Lemma pack_Q_Some (v : Z) :
  0 <= v < 2 ^ 64 -> pack_Q v = Some (le_encode 8 v).
Proof. intros H. unfold pack_Q. by rewrite decide_True. Qed.

Lemma pack_Q_inv (v : Z) (bs : list byte) :
  pack_Q v = Some bs ->
  0 <= v < 2 ^ 64 /\ length bs = 8%nat /\ le_decode bs = v.
Proof.
  unfold pack_Q. case_decide as Hv; [|done]. intros E.
  assert (bs = le_encode 8 v) as -> by congruence.
  split; [done|]. split; [apply le_encode_length|].
  rewrite le_decode_encode. change (256 ^ Z.of_nat 8) with (2 ^ 64).
  by apply Z.mod_small.
Qed.

(** Reading the field that a splice has just written. *)
Lemma uint_at_splice (n : nat) (pre bs post : list byte) :
  length bs = n ->
  uint_at n (length pre) (pre ++ bs ++ post) = Some (le_decode bs).
Proof.
  intros Hn. unfold uint_at.
  rewrite decide_True by (rewrite !length_app; lia).
  rewrite drop_app_length. by rewrite <- Hn, take_app_length.
Qed.

(** A field depends only on the bytes it covers. *)
Lemma uint_at_ext (n off : nat) (l1 l2 : list byte) :
  length l1 = length l2 ->
  (forall i, (off <= i < off + n)%nat -> l1 !! i = l2 !! i) ->
  uint_at n off l1 = uint_at n off l2.
Proof.
  intros Hlen Hi. unfold uint_at. rewrite Hlen.
  case_decide; [|done]. do 2 f_equal.
  apply list_eq. intros i. rewrite !lookup_take, !lookup_drop.
  case_decide; [|done]. apply Hi. lia.
Qed.

Lemma uint_at_app_l (n off : nat) (l1 l2 : list byte) :
  (off + n <= length l1)%nat ->
  uint_at n off (l1 ++ l2) = uint_at n off l1.
Proof.
  intros H. unfold uint_at.
  rewrite !decide_True by (rewrite ?length_app; lia).
  do 2 f_equal. apply list_eq. intros i.
  rewrite !lookup_take, !lookup_drop. case_decide; [|done].
  apply lookup_app_l. lia.
Qed.

Lemma slice_assign_length (buf bs : list byte) (lo hi : nat) :
  (lo <= hi <= length buf)%nat -> length bs = (hi - lo)%nat ->
  length (slice_assign buf lo hi bs) = length buf.
Proof.
  intros H Hbs. unfold slice_assign.
  rewrite !length_app, length_take, length_drop. lia.
Qed.

(** A slice assignment of the slice's own width changes no byte outside
    the slice. *)
Lemma slice_assign_lookup_ne (buf bs : list byte) (lo hi i : nat) :
  (lo <= hi <= length buf)%nat -> length bs = (hi - lo)%nat ->
  ~ (lo <= i < hi)%nat ->
  slice_assign buf lo hi bs !! i = buf !! i.
Proof.
  intros H Hbs Hi. unfold slice_assign.
  destruct (decide (i < lo)%nat) as [Hlt|Hge].
  - rewrite lookup_app_l by (rewrite length_take; lia).
    rewrite lookup_take. by rewrite decide_True.
  - rewrite lookup_app_r by (rewrite length_take; lia).
    rewrite lookup_app_r by (rewrite length_take; lia).
    rewrite lookup_drop, length_take. f_equal. lia.
Qed.

Lemma slice_assign_read (buf bs : list byte) (lo hi : nat) :
  (lo <= length buf)%nat -> length bs = 8%nat ->
  u64_at lo (slice_assign buf lo hi bs) = Some (le_decode bs).
Proof.
  intros H Hbs. unfold slice_assign, u64_at.
  pose proof (uint_at_splice 8 (take lo buf) bs (drop hi buf) Hbs) as E.
  by rewrite length_take_le in E by lia.
Qed.

Lemma zeros_length (n : Z) : len (zeros n) = Z.max 0 n.
Proof. unfold len, zeros. rewrite repeat_length. lia. Qed.

Lemma len_app {A} (l1 l2 : list A) : len (l1 ++ l2) = len l1 + len l2.
Proof. unfold len. rewrite length_app. lia. Qed.

Lemma len_nonneg {A} (l : list A) : 0 <= len l.
Proof. unfold len. lia. Qed.

End BytesFacts.

(** ** Alignment arithmetic *)

Section LayoutFacts.
Import Layout.

Lemma align_conditional_roundUp (unit v : Z) :
  0 < unit -> align_conditional unit v = Spec.roundUp v unit.
Proof.
  intros Hu. unfold align_conditional, Spec.roundUp.
  pose proof (Z.mod_pos_bound v unit Hu) as Hr.
  case_decide as Hz.
  - rewrite (Z.mod_small (unit - v mod unit)) by lia. reflexivity.
  - assert (v mod unit = 0) as -> by lia.
    rewrite Z.sub_0_r, Z_mod_same_full. lia.
Qed.

Lemma align_padding_roundUp (unit v : Z) :
  align_padding unit v = Spec.roundUp v unit.
Proof. reflexivity. Qed.

Lemma align_ceiling_roundUp (unit v : Z) :
  0 < unit -> align_ceiling unit v = Spec.roundUp v unit.
Proof.
  intros Hu. rewrite <- align_conditional_roundUp by done.
  unfold align_ceiling, align_conditional.
  pose proof (Z.mod_pos_bound v unit Hu) as Hr.
  pose proof (Z.div_mod v unit ltac:(lia)) as Hdm.
  case_decide as Hz.
  - assert ((v + unit - 1) / unit = v / unit + 1) as ->.
    { symmetry. apply (Z.div_unique _ _ _ (v mod unit - 1)); lia. }
    lia.
  - assert ((v + unit - 1) / unit = v / unit) as ->.
    { symmetry. apply (Z.div_unique _ _ _ (unit - 1)); lia. }
    lia.
Qed.

Lemma roundUp_aligned (unit v : Z) :
  0 < unit -> Spec.roundUp v unit mod unit = 0.
Proof.
  intros Hu. rewrite <- align_ceiling_roundUp by done.
  unfold align_ceiling. apply Z_mod_mult.
Qed.

Lemma roundUp_bounds (unit v : Z) :
  0 < unit -> v <= Spec.roundUp v unit < v + unit.
Proof.
  intros Hu. unfold Spec.roundUp.
  pose proof (Z.mod_pos_bound (unit - v mod unit) unit Hu). lia.
Qed.

Lemma roundUp_fixed (unit v : Z) :
  0 < unit -> Spec.roundUp v unit = v <-> v mod unit = 0.
Proof.
  intros Hu. rewrite <- align_conditional_roundUp by done.
  unfold align_conditional.
  pose proof (Z.mod_pos_bound v unit Hu) as Hr.
  case_decide; lia.
Qed.

End LayoutFacts.

(** ** The headers the scripts build and patch *)

Section HeaderFacts.
Import Bytes.

Lemma E57Files_header_fields :
  exists h, E57Files.create_e57_header = Some (h, 48)
    /\ length h = 48%nat
    /\ take 8 h = encode_utf8 "ASTM-E57"
    /\ u32_at 8 h = Some 1 /\ u32_at 12 h = Some 0
    /\ u64_at 16 h = Some 0 /\ u64_at 24 h = Some 48
    /\ u64_at 32 h = Some 0 /\ u64_at 40 h = Some 1024.
Proof.
  eexists. split; [vm_compute; reflexivity|]. vm_compute. by repeat split.
Qed.

Lemma TestFiles_header_fields :
  exists h, TestFiles.create_e57_header = Some h
    /\ length h = 48%nat
    /\ take 8 h = encode_utf8 "ASTM-E57"
    /\ u32_at 8 h = Some 1 /\ u32_at 12 h = Some 0
    /\ u64_at 16 h = Some 0 /\ u64_at 24 h = Some 48
    /\ u64_at 32 h = Some 0 /\ u64_at 40 h = Some 1024.
Proof.
  eexists. split; [vm_compute; reflexivity|]. vm_compute. by repeat split.
Qed.

(** The slice assignments of [create_test_e57_files.py] write the file
    length at offset 16 and the XML length at offset 32, and nothing else. *)
Lemma E57Files_update_header_spec (header : list byte) (fl xl : Z) :
  length header = 48%nat -> 0 <= fl < 2 ^ 64 -> 0 <= xl < 2 ^ 64 ->
  exists h', E57Files.update_header header fl xl = Some h'
    /\ length h' = 48%nat
    /\ u64_at 16 h' = Some fl
    /\ u64_at 32 h' = Some xl
    /\ forall i : nat, ~ (16 <= i < 24)%nat -> ~ (32 <= i < 40)%nat ->
         h' !! i = header !! i.
Proof.
  intros Hlen Hfl Hxl. unfold E57Files.update_header.
  rewrite (pack_Q_Some fl Hfl), (pack_Q_Some xl Hxl). cbn [mbind option_bind].
  pose proof (le_encode_length 8 fl) as L1.
  pose proof (le_encode_length 8 xl) as L2.
  set (b1 := le_encode 8 fl) in *. set (b2 := le_encode 8 xl) in *.
  assert (Hl1 : length (slice_assign header 16 24 b1) = 48%nat).
  { rewrite slice_assign_length; lia. }
  eexists. split; [reflexivity|]. split; [|split; [|split]].
  - rewrite slice_assign_length; lia.
  - unfold u64_at; erewrite (uint_at_ext 8 16 _ (slice_assign header 16 24 b1)).
    + fold (u64_at 16); rewrite (slice_assign_read header b1 16 24) by lia.
      f_equal. subst b1. rewrite le_decode_encode.
      change (256 ^ Z.of_nat 8) with (2 ^ 64). by apply Z.mod_small.
    + rewrite slice_assign_length; lia.
    + intros i Hi. apply slice_assign_lookup_ne; lia.
  - rewrite (slice_assign_read _ b2 32 40) by lia.
    f_equal. subst b2. rewrite le_decode_encode.
    change (256 ^ Z.of_nat 8) with (2 ^ 64). by apply Z.mod_small.
  - intros i H1 H2.
    rewrite slice_assign_lookup_ne by lia.
    apply slice_assign_lookup_ne; lia.
Qed.

Lemma pack_into_Q_slice (buf : list byte) (off : nat) (v : Z) :
  0 <= v < 2 ^ 64 -> (off + 8 <= length buf)%nat ->
  pack_into_Q buf off v = Some (slice_assign buf off (off + 8) (le_encode 8 v)).
Proof.
  intros Hv Hoff. unfold pack_into_Q. rewrite (pack_Q_Some v Hv).
  cbn [mbind option_bind]. by rewrite decide_True.
Qed.

(** The [pack_into] calls of [create_test_files.py] write the total length
    at offset 24 and the XML length at offset 40, and nothing else. *)
Lemma TestFiles_update_header_spec (header : list byte) (tl xl : Z) :
  length header = 48%nat -> 0 <= tl < 2 ^ 64 -> 0 <= xl < 2 ^ 64 ->
  exists h', TestFiles.update_header header tl xl = Some h'
    /\ length h' = 48%nat
    /\ u64_at 24 h' = Some tl
    /\ u64_at 40 h' = Some xl
    /\ forall i : nat, ~ (24 <= i < 32)%nat -> ~ (40 <= i < 48)%nat ->
         h' !! i = header !! i.
Proof.
  intros Hlen Htl Hxl. unfold TestFiles.update_header.
  rewrite (pack_into_Q_slice header 24 tl) by (done || lia).
  cbn [mbind option_bind].
  pose proof (le_encode_length 8 tl) as L1.
  pose proof (le_encode_length 8 xl) as L2.
  set (b1 := le_encode 8 tl) in *. set (b2 := le_encode 8 xl) in *.
  assert (Hl1 : length (slice_assign header 24 (24 + 8) b1) = 48%nat).
  { rewrite slice_assign_length; lia. }
  rewrite (pack_into_Q_slice _ 40 xl) by (done || lia).
  fold b2. cbn [mbind option_bind].
  eexists. split; [reflexivity|]. split; [|split; [|split]].
  - rewrite slice_assign_length; lia.
  - unfold u64_at; erewrite (uint_at_ext 8 24 _ (slice_assign header 24 (24 + 8) b1)).
    + fold (u64_at 24); rewrite (slice_assign_read header b1 24 (24 + 8)) by lia.
      f_equal. subst b1. rewrite le_decode_encode.
      change (256 ^ Z.of_nat 8) with (2 ^ 64). by apply Z.mod_small.
    + rewrite slice_assign_length; lia.
    + intros i Hi. apply slice_assign_lookup_ne; lia.
  - rewrite (slice_assign_read _ b2 40 (40 + 8)) by lia.
    f_equal. subst b2. rewrite le_decode_encode.
    change (256 ^ Z.of_nat 8) with (2 ^ 64). by apply Z.mod_small.
  - intros i H1 H2.
    rewrite slice_assign_lookup_ne by lia.
    apply slice_assign_lookup_ne; lia.
Qed.

End HeaderFacts.

(** ** What the writers emit *)

Section WriterFacts.
Import Bytes.

Lemma E57Files_create_e57_file_spec (xml pd : list byte) :
  let v := 48 + len xml in
  let bo := Layout.align_conditional 8 v in
  bo + len pd < 2 ^ 64 ->
  exists h0 header,
    E57Files.create_e57_header = Some (h0, 48)
    /\ E57Files.update_header h0 (bo + len pd) (len xml) = Some header
    /\ E57Files.create_e57_file xml pd =
         Some {| file_bytes := header ++ xml ++ zeros (bo - v) ++ pd;
                 total_length := bo + len pd;
                 xml_offset := 48; xml_length := len xml;
                 binary_offset := bo; payload_length := len pd |}.
Proof.
  intros v bo Hb.
  destruct E57Files_header_fields as (h0 & Hh & Hlen & _).
  pose proof (len_nonneg xml) as Hx. pose proof (len_nonneg pd) as Hp.
  assert (Hbo : v <= bo < v + 8).
  { subst bo. rewrite align_conditional_roundUp by lia.
    apply roundUp_bounds. lia. }
  destruct (E57Files_update_header_spec h0 (bo + len pd) (len xml))
    as (header & Hu & Hl & _); [done|lia|lia|].
  exists h0, header. split; [done|]. split; [done|].
  unfold E57Files.create_e57_file. rewrite Hh. cbn [mbind option_bind].
  fold v. fold (Layout.align_conditional 8 v). fold bo.
  rewrite Hu. cbn [mbind option_bind].
  unfold IO.with_open, mbind, mret, IO.M_bind, IO.M_ret, IO.bind, IO.ret,
    IO.write, IO.tell.
  cbv beta iota. rewrite app_nil_l.
  assert (Hpos : len (header ++ xml) = v).
  { rewrite len_app. unfold len at 1. rewrite Hl. reflexivity. }
  rewrite Hpos.
  case_decide as Hlt; cbv beta iota; cbn [option_bind]; do 2 f_equal.
  - by rewrite <- !app_assoc.
  - assert (bo - v = 0) as -> by lia. cbn [zeros Z.to_nat repeat app].
    by rewrite <- !app_assoc.
Qed.



Lemma TestFiles_create_e57_file_spec (xml pd : list byte) :
  let v := 48 + len xml in
  let bo := Layout.align_padding 1024 v in
  bo + len pd < 2 ^ 64 ->
  exists h0 header,
    TestFiles.create_e57_header = Some h0
    /\ TestFiles.update_header h0 (bo + len pd) (len xml) = Some header
    /\ TestFiles.create_e57_file xml pd =
         Some {| file_bytes := header ++ xml ++ zeros (bo - v) ++ pd;
                 total_length := bo + len pd;
                 xml_offset := 48; xml_length := len xml;
                 binary_offset := bo; payload_length := len pd |}.
Proof.
  intros v bo Hb.
  destruct TestFiles_header_fields as (h0 & Hh & Hlen & _).
  pose proof (len_nonneg xml) as Hx. pose proof (len_nonneg pd) as Hp.
  assert (Hbo : v <= bo < v + 1024).
  { subst bo. rewrite align_padding_roundUp. apply roundUp_bounds. lia. }
  destruct (TestFiles_update_header_spec h0 (bo + len pd) (len xml))
    as (header & Hu & Hl & _); [done|lia|lia|].
  exists h0, header. split; [done|]. split; [done|].
  unfold TestFiles.create_e57_file. rewrite Hh. cbn [mbind option_bind].
  assert (Hl0 : len h0 = 48) by (unfold len; by rewrite Hlen).
  rewrite Hl0. fold v.
  change (v + (1024 - v `mod` 1024) `mod` 1024) with bo.
  rewrite Hu. cbn [mbind option_bind].
  unfold IO.with_open, mbind, IO.M_bind, IO.bind, IO.write.
  cbv beta iota. rewrite app_nil_l. cbn [option_bind]. do 2 f_equal.
  rewrite <- !app_assoc.
  replace (bo - v) with ((1024 - v `mod` 1024) `mod` 1024); [done|].
  unfold bo, Layout.align_padding. cbv zeta. lia.
Qed.

End WriterFacts.

(** ** The header fields of the files written *)

Section FieldFacts.
Import Bytes.

(** Every file written by [create_test_e57_files.py]'s [create_e57_file]
    decodes to the planned total length, [xmlOffset = 48], the XML length
    and [pageSize = 1024]. *)
Lemma E57Files_written_fields (xml pd : list byte) :
  let v := 48 + len xml in
  let bo := Layout.align_conditional 8 v in
  bo + len pd < 2 ^ 64 ->
  exists header,
    length header = 48%nat
    /\ E57Files.create_e57_file xml pd =
         Some {| file_bytes := header ++ xml ++ zeros (bo - v) ++ pd;
                 total_length := bo + len pd;
                 xml_offset := 48; xml_length := len xml;
                 binary_offset := bo; payload_length := len pd |}
    /\ Spec.decode_fields (header ++ xml ++ zeros (bo - v) ++ pd) =
         Some {| Spec.filePhysicalLength := bo + len pd;
                 Spec.xmlOffset := 48;
                 Spec.xmlLength := len xml;
                 Spec.pageSize := 1024 |}.
Proof.
  intros v bo Hb.
  destruct (E57Files_create_e57_file_spec xml pd Hb)
    as (h0 & header & Hh & Hu & Hw).
  destruct E57Files_header_fields
    as (h0' & Hh' & Hlen & _ & _ & _ & _ & H24 & _ & H40).
  assert (h0' = h0) as -> by congruence.
  pose proof (len_nonneg xml) as Hx. pose proof (len_nonneg pd) as Hp.
  assert (Hbo : v <= bo < v + 8).
  { subst bo. rewrite align_conditional_roundUp by lia.
    apply roundUp_bounds. lia. }
  destruct (E57Files_update_header_spec h0 (bo + len pd) (len xml))
    as (header' & Hu' & Hl & F16 & F32 & Hframe); [done|lia|lia|].
  pose proof (eq_trans (eq_sym Hu') Hu) as E. injection E as ->.
  exists header. split; [done|]. split; [exact Hw|].
  unfold Spec.decode_fields, u64_at.
  rewrite !uint_at_app_l by lia. fold (u64_at 16) (u64_at 32).
  rewrite F16, F32.
  rewrite (uint_at_ext 8 24 header h0), (uint_at_ext 8 40 header h0);
    [|lia|intros i Hi; apply Hframe; lia|lia|intros i Hi; apply Hframe; lia].
  fold (u64_at 24) (u64_at 40). rewrite H24, H40. reflexivity.
Qed.

(** Every file written by [create_test_files.py]'s [create_e57_file] holds
    the total length in the bytes at offset 24 and the XML length in the
    bytes at offset 40; the bytes at offsets 16 and 32 stay zero. *)
Lemma TestFiles_written_fields (xml pd : list byte) :
  let v := 48 + len xml in
  let bo := Layout.align_padding 1024 v in
  bo + len pd < 2 ^ 64 ->
  exists header,
    length header = 48%nat
    /\ TestFiles.create_e57_file xml pd =
         Some {| file_bytes := header ++ xml ++ zeros (bo - v) ++ pd;
                 total_length := bo + len pd;
                 xml_offset := 48; xml_length := len xml;
                 binary_offset := bo; payload_length := len pd |}
    /\ Spec.decode_fields (header ++ xml ++ zeros (bo - v) ++ pd) =
         Some {| Spec.filePhysicalLength := 0;
                 Spec.xmlOffset := bo + len pd;
                 Spec.xmlLength := 0;
                 Spec.pageSize := len xml |}.
Proof.
  intros v bo Hb.
  destruct (TestFiles_create_e57_file_spec xml pd Hb)
    as (h0 & header & Hh & Hu & Hw).
  destruct TestFiles_header_fields
    as (h0' & Hh' & Hlen & _ & _ & _ & H16 & _ & H32 & _).
  assert (h0' = h0) as -> by congruence.
  pose proof (len_nonneg xml) as Hx. pose proof (len_nonneg pd) as Hp.
  assert (Hbo : v <= bo < v + 1024).
  { subst bo. rewrite align_padding_roundUp. apply roundUp_bounds. lia. }
  destruct (TestFiles_update_header_spec h0 (bo + len pd) (len xml))
    as (header' & Hu' & Hl & F24 & F40 & Hframe); [done|lia|lia|].
  pose proof (eq_trans (eq_sym Hu') Hu) as E. injection E as ->.
  exists header. split; [done|]. split; [exact Hw|].
  unfold Spec.decode_fields, u64_at.
  rewrite !uint_at_app_l by lia. fold (u64_at 24) (u64_at 40).
  rewrite F24, F40.
  rewrite (uint_at_ext 8 16 header h0), (uint_at_ext 8 32 header h0);
    [|lia|intros i Hi; apply Hframe; lia|lia|intros i Hi; apply Hframe; lia].
  fold (u64_at 16) (u64_at 32). rewrite H16, H32. reflexivity.
Qed.

End FieldFacts.

(** ** The point payload *)

Section PayloadFacts.
Import Float32.

Lemma pack_f_packable (x : pyfloat) :
  packable x = true -> pack_f x = Some (single_bytes x).
Proof.
  unfold pack_f. by intros ->.
Qed.

Lemma pack_f_overflow (x : pyfloat) :
  packable x = false -> pack_f x = None.
Proof.
  unfold pack_f. by intros ->.
Qed.

(** Known encodings: 1.0 is [0x3f800000], -2.5 is [0xc0200000], the largest
    finite single is [0x7f7fffff], infinity is [0x7f800000], the smallest
    subnormal is [0x00000001]; [float('nan')] is [0x7fc00000], its negation
    [0xffc00000], and a payload keeps its upper 22 bits; [2^128] is out of
    range, as is the midpoint between the largest single and [2^128]. *)
Example pack_f_known_answers :
  pack_f (PyNum 1.0) = Some [x00; x00; x80; x3f]
  /\ pack_f (PyNum (-2.5)) = Some [x00; x00; x20; xc0]
  /\ pack_f (PyNum 0x1.fffffep+127) = Some [xff; xff; x7f; x7f]
  /\ pack_f (PyNum infinity) = Some [x00; x00; x80; x7f]
  /\ pack_f (PyNum 0x1p-149) = Some [x01; x00; x00; x00]
  /\ pack_f (PyNum nan) = Some [x00; x00; xc0; x7f]
  /\ pack_f (PyNaN false 0) = Some [x00; x00; xc0; x7f]
  /\ pack_f (PyNaN true 0) = Some [x00; x00; xc0; xff]
  /\ pack_f (PyNaN true (3 * 2 ^ 29 + 5)) = Some [x03; x00; xc0; xff]
  /\ pack_f (PyNum 0x1p+128) = None
  /\ pack_f (PyNum 0x1.ffffffp+127) = None.
Proof. vm_compute. by repeat split. Qed.

Lemma single_bytes_length (x : pyfloat) : length (single_bytes x) = 4%nat.
Proof. apply le_encode_length. Qed.

(** The loop appends the four bytes of each coordinate, in order. *)
Lemma extend_packed_concat (cs : list pyfloat) (data : list byte) :
  forallb packable cs = true ->
  E57Files.extend_packed data cs = Some (data ++ concat (map single_bytes cs)).
Proof.
  revert data. induction cs as [|c cs IH]; intros data H.
  - simpl. by rewrite app_nil_r.
  - cbn [forallb] in H. apply andb_true_iff in H as [Hc Hcs].
    cbn [E57Files.extend_packed]. rewrite (pack_f_packable c Hc).
    cbn [mbind option_bind]. rewrite (IH _ Hcs).
    cbn [map concat]. by rewrite <- app_assoc.
Qed.

(** The loop stops with an error at the first coordinate that
    [struct.pack] rejects. *)
Lemma extend_packed_overflow (cs : list pyfloat) (data : list byte) :
  forallb packable cs = false -> E57Files.extend_packed data cs = None.
Proof.
  revert data. induction cs as [|c cs IH]; intros data H; [done|].
  cbn [forallb] in H. cbn [E57Files.extend_packed].
  destruct (packable c) eqn:Hc.
  - rewrite (pack_f_packable c Hc). cbn [mbind option_bind]. by apply IH.
  - by rewrite (pack_f_overflow c Hc).
Qed.



End PayloadFacts.

(** ** Header patching *)

(** C1 (at the failing input). The header update of
    [create_test_files.py], applied to the header that script builds with
    the values of its first fixture (total length 2084, XML length 1755),
    leaves the eight bytes at offsets 16 and 32 zero and overwrites the
    bytes at offset 24 (the XML offset) with the total length and the bytes
    at offset 40 (the page size) with the XML length. *)
Theorem C1_test_files_patch_misses_placeholders :
  exists h0 h',
    TestFiles.create_e57_header = Some h0
    /\ TestFiles.update_header h0 2084 1755 = Some h'
    /\ Bytes.u64_at 16 h0 = Some 0 /\ Bytes.u64_at 16 h' = Some 0
    /\ Bytes.u64_at 32 h0 = Some 0 /\ Bytes.u64_at 32 h' = Some 0
    /\ Bytes.u64_at 24 h0 = Some 48 /\ Bytes.u64_at 24 h' = Some 2084
    /\ Bytes.u64_at 40 h0 = Some 1024 /\ Bytes.u64_at 40 h' = Some 1755.
Proof.
  eexists _, _. split; [vm_compute; reflexivity|].
  split; [vm_compute; reflexivity|]. vm_compute. by repeat split.
Qed.

(** ** The XML offset field *)

(** Files written by [create_test_e57_files.py] carry 48 at offset 24. *)
Lemma E57Files_xml_offset_field (xml pd : list byte) :
  Layout.align_conditional 8 (48 + Bytes.len xml) + Bytes.len pd < 2 ^ 64 ->
  exists w, E57Files.create_e57_file xml pd = Some w
    /\ Bytes.u64_at 24 (file_bytes w) = Some 48.
Proof.
  intros Hb.
  destruct (E57Files_written_fields xml pd Hb) as (header & Hl & Hw & Hd).
  eexists. split; [exact Hw|]. cbn [file_bytes].
  unfold Spec.decode_fields in Hd.
  destruct (Bytes.u64_at 16 _); [|done]. cbn [mbind option_bind] in Hd.
  destruct (Bytes.u64_at 24 _); [|done]. cbn [mbind option_bind] in Hd.
  destruct (Bytes.u64_at 32 _); [|done]. cbn [mbind option_bind] in Hd.
  destruct (Bytes.u64_at 40 _); [|done]. cbn [mbind option_bind] in Hd.
  congruence.
Qed.

(** Both files written by [create_test_e57_codec_fixed.py] carry 48 at
    offset 24. *)
Lemma CodecFixed_xml_offset_field :
  (exists w, CodecFixed.create_e57_with_bitpack_codec = Some w
     /\ Bytes.u64_at 24 (file_bytes w) = Some 48)
  /\ (exists f, CodecFixed.create_e57_with_unsupported_codec = Some f
     /\ Bytes.u64_at 24 f = Some 48).
Proof.
  split; (eexists; split; [vm_compute; reflexivity|vm_compute; reflexivity]).
Qed.

(** C2 (at the failing input). In the first file that
    [create_test_files.py] writes, the field at byte offset 24 holds the
    total file length 2084, not 48. *)
Theorem C2_test_files_xml_offset_overwritten :
  exists w,
    TestFiles.compressedvector_uncompressed_data = Some w
    /\ Bytes.u64_at 24 (file_bytes w) = Some 2084
    /\ total_length w = 2084.
Proof.
  eexists. split; [vm_compute; reflexivity|]. vm_compute. by repeat split.
Qed.

(** ** Round trip through the header *)

(** For every file written by [create_test_e57_files.py], the layout
    re-derived from the decoded header with the 8-byte unit is the layout
    the writer used. *)
Lemma E57Files_roundtrip (xml pd : list byte) :
  Layout.align_conditional 8 (48 + Bytes.len xml) + Bytes.len pd < 2 ^ 64 ->
  exists w h,
    E57Files.create_e57_file xml pd = Some w
    /\ Spec.decode_fields (file_bytes w) = Some h
    /\ Spec.rederive 8 h = (binary_offset w, total_length w).
Proof.
  intros Hb.
  destruct (E57Files_written_fields xml pd Hb) as (header & Hl & Hw & Hd).
  eexists _, _. split; [exact Hw|]. split; [exact Hd|].
  unfold Spec.rederive.
  cbn [Spec.xmlOffset Spec.xmlLength Spec.filePhysicalLength
       binary_offset total_length].
  by rewrite align_conditional_roundUp by lia.
Qed.

(** The same holds, with the 1024-byte unit, for the file written by
    [create_e57_with_bitpack_codec]. *)
Lemma CodecFixed_roundtrip :
  exists w h,
    CodecFixed.create_e57_with_bitpack_codec = Some w
    /\ Spec.decode_fields (file_bytes w) = Some h
    /\ Spec.rederive (Spec.pageSize h) h = (binary_offset w, total_length w).
Proof.
  eexists _, _. split; [vm_compute; reflexivity|].
  split; vm_compute; reflexivity.
Qed.

(** C3 (at the failing input). For the first file that
    [create_test_files.py] writes, the decoded header gives
    filePhysicalLength 0, xmlOffset 2084, xmlLength 0 and pageSize 1755; the
    layout re-derived from them with the 1024-byte unit is binaryOffset 3072
    and totalLength 0, while the file was written with binaryOffset 2048 and
    totalLength 2084. *)
Theorem C3_test_files_roundtrip_fails :
  exists w h,
    TestFiles.compressedvector_uncompressed_data = Some w
    /\ Spec.decode_fields (file_bytes w) = Some h
    /\ h = {| Spec.filePhysicalLength := 0; Spec.xmlOffset := 2084;
              Spec.xmlLength := 0; Spec.pageSize := 1755 |}
    /\ binary_offset w = 2048 /\ total_length w = 2084
    /\ Spec.rederive 1024 h = (3072, 0).
Proof.
  eexists _, _. split; [vm_compute; reflexivity|].
  split; [vm_compute; reflexivity|]. vm_compute. by repeat split.
Qed.

(** ** The file offset declared in the XML *)

(** In the file written by [create_e57_with_bitpack_codec], the
    CompressedVector element declares the offset at which the payload is
    written. *)
Lemma CodecFixed_file_offset_matches :
  exists w root cv,
    CodecFixed.create_e57_with_bitpack_codec = Some w
    /\ Xml.parse (xml_section w) = Some root
    /\ Xml.compressed_vectors root = [cv]
    /\ Xml.attr "fileOffset" cv = Some (Str.str (binary_offset w))
    /\ binary_offset w = 2048.
Proof.
  eexists _, _, _. split; [vm_compute; reflexivity|].
  split; [vm_compute; reflexivity|].
  split; [vm_compute; reflexivity|]. vm_compute. by split.
Qed.

(** C4 (at the failing input). In the valid fixture written by
    [create_test_e57_files.py], the CompressedVector element declares
    fileOffset 1248, the fixed estimate [48 + 1200], while the payload is
    written at the planned binary offset 2040. *)
Theorem C4_e57_files_file_offset_is_estimate :
  exists w root cv pd,
    E57Files.compressedvector_uncompressed_data = Some w
    /\ Xml.parse (xml_section w) = Some root
    /\ Xml.compressed_vectors root = [cv]
    /\ Xml.attr "fileOffset" cv = Some (Str.str (48 + 1200))
    /\ Str.str (48 + 1200) = "1248"
    /\ binary_offset w = 2040
    /\ E57Files.create_point_data = Some pd
    /\ drop (Z.to_nat (binary_offset w)) (file_bytes w) = pd.
Proof.
  eexists _, _, _, _. split; [vm_compute; reflexivity|].
  split; [vm_compute; reflexivity|].
  split; [vm_compute; reflexivity|].
  split; [vm_compute; reflexivity|].
  split; [vm_compute; reflexivity|].
  split; [vm_compute; reflexivity|].
  split; [vm_compute; reflexivity|]. vm_compute. reflexivity.
Qed.

(** ** Header fields against the plan *)

(** C5 (counterexample). In the valid fixture written by
    [create_test_e57_files.py] the header declares xmlOffset 48 and
    xmlLength 1991, whose sum 2039 is not the binary offset 2040 at which
    the payload is placed. *)
Lemma C5_counterexample :
  exists w h,
    E57Files.compressedvector_uncompressed_data = Some w
    /\ Spec.decode_fields (file_bytes w) = Some h
    /\ Spec.xmlOffset h + Spec.xmlLength h = 2039
    /\ binary_offset w = 2040
    /\ Spec.xmlOffset h + Spec.xmlLength h <> binary_offset w.
Proof.
  eexists _, _. split; [vm_compute; reflexivity|].
  split; [vm_compute; reflexivity|]. vm_compute. by repeat split.
Qed.

(** C5 (amended). For every fixture written by [create_test_e57_files.py]'s
    [create_e57_file], the emitted header satisfies
    [roundUp(xmlOffset + xmlLength, 8) = binaryOffset], with
    [xmlOffset + xmlLength = binaryOffset] exactly when that sum is a
    multiple of 8, and [filePhysicalLength = binaryOffset + payload bytes]. *)
Theorem C5_header_matches_aligned_plan (xml pd : list byte) :
  Bytes.len xml + Bytes.len pd < 2 ^ 64 - 56 ->
  exists w h,
    E57Files.create_e57_file xml pd = Some w
    /\ Spec.decode_fields (file_bytes w) = Some h
    /\ Spec.roundUp (Spec.xmlOffset h + Spec.xmlLength h) 8 = binary_offset w
    /\ (Spec.xmlOffset h + Spec.xmlLength h = binary_offset w
        <-> (Spec.xmlOffset h + Spec.xmlLength h) mod 8 = 0)
    /\ Spec.xmlOffset h + Spec.xmlLength h <= binary_offset w
         < Spec.xmlOffset h + Spec.xmlLength h + 8
    /\ Spec.filePhysicalLength h = binary_offset w + Bytes.len pd
    /\ payload_length w = Bytes.len pd.
Proof.
  intros Hb.
  pose proof (roundUp_bounds 8 (48 + Bytes.len xml) ltac:(lia)) as Hr.
  destruct (E57Files_written_fields xml pd) as (header & Hl & Hw & Hd).
  { rewrite align_conditional_roundUp by lia. lia. }
  eexists _, _. split; [exact Hw|]. split; [exact Hd|].
  cbn [Spec.xmlOffset Spec.xmlLength Spec.filePhysicalLength
       binary_offset payload_length].
  rewrite align_conditional_roundUp by lia.
  split; [done|]. split; [|repeat split; (done || lia)].
  split; intros H.
  - apply (roundUp_fixed 8); [lia|done].
  - symmetry. apply (roundUp_fixed 8); [lia|done].
Qed.

(** C5 (amended) at the valid fixture of [create_test_e57_files.py]. *)
Lemma C5_header_matches_aligned_plan_witness :
  Bytes.len E57Files.create_compressed_vector_xml
    + Bytes.len (default [] E57Files.create_point_data) < 2 ^ 64 - 56
  /\ exists w h,
    E57Files.create_e57_file E57Files.create_compressed_vector_xml
      (default [] E57Files.create_point_data) = Some w
    /\ Spec.decode_fields (file_bytes w) = Some h
    /\ Spec.roundUp (Spec.xmlOffset h + Spec.xmlLength h) 8 = binary_offset w
    /\ (Spec.xmlOffset h + Spec.xmlLength h = binary_offset w
        <-> (Spec.xmlOffset h + Spec.xmlLength h) mod 8 = 0)
    /\ Spec.xmlOffset h + Spec.xmlLength h <= binary_offset w
         < Spec.xmlOffset h + Spec.xmlLength h + 8
    /\ Spec.filePhysicalLength h = binary_offset w + Bytes.len (default [] E57Files.create_point_data)
    /\ payload_length w = Bytes.len (default [] E57Files.create_point_data).
Proof.
  split; [vm_compute; reflexivity|].
  apply (C5_header_matches_aligned_plan
           E57Files.create_compressed_vector_xml (default [] E57Files.create_point_data)).
  vm_compute; reflexivity.
Defined.

(** ** Alignment *)



(** ** The bytes emitted *)


(** The file written by [create_e57_with_bitpack_codec] has the same
    layout, around the XML section its header declares. *)
Lemma CodecFixed_emitted_as_planned :
  exists w pd,
    CodecFixed.create_e57_with_bitpack_codec = Some w
    /\ E57Files.create_point_data = Some pd
    /\ Spec.emitted_as_planned
         (take (Z.to_nat (xml_length w)) (drop 48 (file_bytes w))) pd
         (Some w).
Proof.
  eexists _, _. split; [vm_compute; reflexivity|].
  split; [vm_compute; reflexivity|].
  match goal with
  | |- Spec.emitted_as_planned _ _ (Some ?w) =>
      exists w, (take 48 (file_bytes w))
  end.
  split; [reflexivity|].
  split; [vm_compute; reflexivity|].
  split; [vm_compute; reflexivity|].
  split; [vm_compute; reflexivity|].
  split; vm_compute; reflexivity.
Qed.


(** ** The point payload *)



(** ** The malformed metadata document *)

(** C9 (counterexample). The document of [create_malformed_xml] does not
    omit the codecs block: its CompressedVector element has a [codecs] child
    element. *)
Lemma C9_counterexample :
  exists root cv,
    Xml.parse (string_of_list_byte E57Files.create_malformed_xml) = Some root
    /\ Xml.compressed_vectors root = [cv]
    /\ Xml.children_named "codecs" cv <> [].
Proof.
  eexists _, _. split; [vm_compute; reflexivity|].
  split; [vm_compute; reflexivity|]. vm_compute. discriminate.
Qed.

(** C9 (amended). The document of [create_malformed_xml] is well-formed
    XML; its CompressedVector element declares recordCount "invalid_count",
    its prototype holds the single field cartesianX, and its codecs element
    is present but has no child element. *)
Theorem C9_malformed_document_shape :
  exists root cv proto codecs,
    Xml.well_formed (string_of_list_byte E57Files.create_malformed_xml) = true
    /\ Xml.parse (string_of_list_byte E57Files.create_malformed_xml) = Some root
    /\ Xml.compressed_vectors root = [cv]
    /\ Xml.attr "recordCount" cv = Some "invalid_count"
    /\ Xml.children_named "prototype" cv = [proto]
    /\ map Xml.tag_of (Xml.child_elems proto) = ["cartesianX"]
    /\ Xml.children_named "codecs" cv = [codecs]
    /\ Xml.child_elems codecs = []
    /\ map Xml.tag_of (Xml.child_elems cv) = ["prototype"; "codecs"].
Proof.
  eexists _, _, _, _. split; [vm_compute; reflexivity|].
  split; [vm_compute; reflexivity|].
  split; [vm_compute; reflexivity|].
  split; [vm_compute; reflexivity|].
  split; [vm_compute; reflexivity|].
  split; [vm_compute; reflexivity|].
  split; [vm_compute; reflexivity|].
  split; vm_compute; reflexivity.
Qed.

(** ** The page-size field *)

(** Every file written by [create_test_e57_files.py] carries 1024 in the
    page-size field, while the padding before the payload is the 8-byte
    alignment padding, fewer than 8 bytes. *)
Lemma E57Files_page_size_field (xml pd : list byte) :
  Bytes.len xml + Bytes.len pd < 2 ^ 64 - 56 ->
  exists w h,
    E57Files.create_e57_file xml pd = Some w
    /\ Spec.decode_fields (file_bytes w) = Some h
    /\ Spec.pageSize h = 1024
    /\ binary_offset w = Spec.roundUp (48 + Bytes.len xml) 8
    /\ 0 <= binary_offset w - (48 + Bytes.len xml) < 8.
Proof.
  intros Hb.
  pose proof (roundUp_bounds 8 (48 + Bytes.len xml) ltac:(lia)) as Hr.
  destruct (E57Files_written_fields xml pd) as (header & Hl & Hw & Hd).
  { rewrite align_conditional_roundUp by lia. lia. }
  eexists _, _. split; [exact Hw|]. split; [exact Hd|].
  cbn [Spec.pageSize binary_offset].
  rewrite align_conditional_roundUp by lia. repeat split; lia.
Qed.

(** In the valid fixture of [create_test_e57_files.py] the binary offset is
    not a multiple of the page size the header declares. *)
Lemma E57Files_binary_offset_not_page_aligned :
  exists w h,
    E57Files.compressedvector_uncompressed_data = Some w
    /\ Spec.decode_fields (file_bytes w) = Some h
    /\ Spec.pageSize h = 1024
    /\ binary_offset w mod Spec.pageSize h = 1016.
Proof.
  eexists _, _. split; [vm_compute; reflexivity|].
  split; [vm_compute; reflexivity|]. vm_compute. by split.
Qed.

(** C10 (at the failing input). In the first file that
    [create_test_files.py] writes, the page-size field at byte offset 40
    holds the XML length 1755, not 1024. *)
Theorem C10_test_files_page_size_overwritten :
  exists w,
    TestFiles.compressedvector_uncompressed_data = Some w
    /\ Bytes.u64_at 40 (file_bytes w) = Some 1755
    /\ xml_length w = 1755.
Proof.
  eexists. split; [vm_compute; reflexivity|]. vm_compute. by split.
Qed.

(** * Further properties of the writers *)

(** ** Header updates *)

(** X1. On a 48-byte header and values in u64 range, the header update of
    [create_test_e57_files.py] stores the file length in the eight bytes at
    offset 16 and the XML length in the eight bytes at offset 32, keeps the
    header 48 bytes long, and changes no other byte: the signature, the
    version words, the XML offset and the page size read as before. *)
Theorem X1_e57_update_header_patches_only_placeholders
    (header : list byte) (fl xl : Z) :
  length header = 48%nat -> 0 <= fl < 2 ^ 64 -> 0 <= xl < 2 ^ 64 ->
  exists h', E57Files.update_header header fl xl = Some h'
    /\ length h' = 48%nat
    /\ Bytes.u64_at 16 h' = Some fl
    /\ Bytes.u64_at 32 h' = Some xl
    /\ (forall i : nat, ~ (16 <= i < 24)%nat -> ~ (32 <= i < 40)%nat ->
         h' !! i = header !! i)
    /\ take 16 h' = take 16 header
    /\ Bytes.u64_at 24 h' = Bytes.u64_at 24 header
    /\ Bytes.u64_at 40 h' = Bytes.u64_at 40 header.
Proof.
  intros Hlen Hfl Hxl.
  destruct (E57Files_update_header_spec header fl xl Hlen Hfl Hxl)
    as (h' & Hu & Hl & F16 & F32 & Hframe).
  exists h'. do 5 (split; [done|]). split; [|split].
  - apply list_eq. intros i. rewrite !lookup_take.
    case_decide; [|done]. apply Hframe; lia.
  - apply uint_at_ext; [lia|]. intros i Hi. apply Hframe; lia.
  - apply uint_at_ext; [lia|]. intros i Hi. apply Hframe; lia.
Qed.

(** X1 at forty-eight zero bytes, with the lengths of the valid fixture. *)
Lemma X1_e57_update_header_patches_only_placeholders_witness :
  length (Bytes.zeros 48) = 48%nat
  /\ 0 <= 2076 < 2 ^ 64 /\ 0 <= 1991 < 2 ^ 64
  /\ exists h', E57Files.update_header (Bytes.zeros 48) 2076 1991 = Some h'
    /\ length h' = 48%nat
    /\ Bytes.u64_at 16 h' = Some 2076
    /\ Bytes.u64_at 32 h' = Some 1991
    /\ (forall i : nat, ~ (16 <= i < 24)%nat -> ~ (32 <= i < 40)%nat ->
         h' !! i = Bytes.zeros 48 !! i)
    /\ take 16 h' = take 16 (Bytes.zeros 48)
    /\ Bytes.u64_at 24 h' = Bytes.u64_at 24 (Bytes.zeros 48)
    /\ Bytes.u64_at 40 h' = Bytes.u64_at 40 (Bytes.zeros 48).
Proof.
  split; [reflexivity|]. split; [lia|]. split; [lia|].
  apply (X1_e57_update_header_patches_only_placeholders
           (Bytes.zeros 48) 2076 1991); [reflexivity|lia|lia].
Defined.

(** X2. The header update of [create_test_e57_files.py] raises exactly when
    one of the two values is outside the u64 range; the buffer length plays
    no part. *)
Theorem X2_e57_update_header_raises_iff_out_of_range
    (header : list byte) (fl xl : Z) :
  E57Files.update_header header fl xl = None
  <-> ~ (0 <= fl < 2 ^ 64) \/ ~ (0 <= xl < 2 ^ 64).
Proof.
  unfold E57Files.update_header, Bytes.pack_Q.
  destruct (decide (0 <= fl < 2 ^ 64)) as [Hf|Hf];
    destruct (decide (0 <= xl < 2 ^ 64)) as [Hx|Hx];
    cbn [mbind option_bind]; split; intros H;
    try discriminate; try tauto; destruct H; tauto.
Qed.

(** X3. The header update of [create_test_files.py] raises exactly when one
    of the two values is outside the u64 range or the buffer is shorter
    than 48 bytes. *)
Theorem X3_test_files_update_header_raises_iff
    (header : list byte) (tl xl : Z) :
  TestFiles.update_header header tl xl = None
  <-> ~ (0 <= tl < 2 ^ 64) \/ ~ (0 <= xl < 2 ^ 64)
      \/ (length header < 48)%nat.
Proof.
  unfold TestFiles.update_header, Bytes.pack_into_Q, Bytes.pack_Q.
  destruct (decide (0 <= tl < 2 ^ 64)) as [Hf|Hf]; cbn [mbind option_bind];
    [|split; [tauto|done]].
  destruct (decide (24 + 8 <= length header)%nat) as [H32|H32];
    cbn [mbind option_bind]; [|split; [intros _; right; right; lia|done]].
  destruct (decide (0 <= xl < 2 ^ 64)) as [Hx|Hx]; cbn [mbind option_bind];
    [|split; [tauto|done]].
  rewrite !length_app, length_take, length_drop, le_encode_length.
  destruct (decide (40 + 8 <= _)%nat) as [H48|H48].
  - split; [done|]. intros [H|[H|H]]; [tauto|tauto|lia].
  - split; [|done]. intros _. right. right. lia.
Qed.

(** X4. On a 48-byte header and values in u64 range, the header update of
    [create_test_files.py] stores the total length in the eight bytes at
    offset 24 and the XML length in the eight bytes at offset 40, keeps the
    header 48 bytes long, and changes no other byte: the first 24 bytes and
    the eight bytes at offset 32 read as before. *)
Theorem X4_test_files_update_header_frame
    (header : list byte) (tl xl : Z) :
  length header = 48%nat -> 0 <= tl < 2 ^ 64 -> 0 <= xl < 2 ^ 64 ->
  exists h', TestFiles.update_header header tl xl = Some h'
    /\ length h' = 48%nat
    /\ Bytes.u64_at 24 h' = Some tl
    /\ Bytes.u64_at 40 h' = Some xl
    /\ (forall i : nat, ~ (24 <= i < 32)%nat -> ~ (40 <= i < 48)%nat ->
         h' !! i = header !! i)
    /\ take 24 h' = take 24 header
    /\ Bytes.u64_at 16 h' = Bytes.u64_at 16 header
    /\ Bytes.u64_at 32 h' = Bytes.u64_at 32 header.
Proof.
  intros Hlen Htl Hxl.
  destruct (TestFiles_update_header_spec header tl xl Hlen Htl Hxl)
    as (h' & Hu & Hl & F24 & F40 & Hframe).
  exists h'. do 5 (split; [done|]). split; [|split].
  - apply list_eq. intros i. rewrite !lookup_take.
    case_decide; [|done]. apply Hframe; lia.
  - apply uint_at_ext; [lia|]. intros i Hi. apply Hframe; lia.
  - apply uint_at_ext; [lia|]. intros i Hi. apply Hframe; lia.
Qed.

(** X4 at forty-eight zero bytes, with the lengths of the first fixture. *)
Lemma X4_test_files_update_header_frame_witness :
  length (Bytes.zeros 48) = 48%nat
  /\ 0 <= 2084 < 2 ^ 64 /\ 0 <= 1755 < 2 ^ 64
  /\ exists h', TestFiles.update_header (Bytes.zeros 48) 2084 1755 = Some h'
    /\ length h' = 48%nat
    /\ Bytes.u64_at 24 h' = Some 2084
    /\ Bytes.u64_at 40 h' = Some 1755
    /\ (forall i : nat, ~ (24 <= i < 32)%nat -> ~ (40 <= i < 48)%nat ->
         h' !! i = Bytes.zeros 48 !! i)
    /\ take 24 h' = take 24 (Bytes.zeros 48)
    /\ Bytes.u64_at 16 h' = Bytes.u64_at 16 (Bytes.zeros 48)
    /\ Bytes.u64_at 32 h' = Bytes.u64_at 32 (Bytes.zeros 48).
Proof.
  split; [reflexivity|]. split; [lia|]. split; [lia|].
  apply (X4_test_files_update_header_frame (Bytes.zeros 48) 2084 1755);
    [reflexivity|lia|lia].
Defined.

(** ** Reading a written file back *)

Section SectionFacts.
Import Bytes.

(** The XML and the payload sit where the layout says. *)
Lemma sections_of_layout (header xml pad pd : list byte) :
  take (length xml) (drop (length header) (header ++ xml ++ pad ++ pd)) = xml
  /\ take (length pad)
       (drop (length header + length xml) (header ++ xml ++ pad ++ pd)) = pad
  /\ drop (length header + length xml + length pad)
       (header ++ xml ++ pad ++ pd) = pd.
Proof.
  split; [|split].
  - by rewrite drop_app_length, take_app_length.
  - rewrite <- drop_drop, drop_app_length, drop_app_length.
    by rewrite take_app_length.
  - rewrite <- !drop_drop. by rewrite !drop_app_length.
Qed.

Lemma len_to_nat {A} (l : list A) : Z.to_nat (len l) = length l.
Proof. unfold len. lia. Qed.

End SectionFacts.

(** X5. A file written by [create_test_e57_files.py]'s [create_e57_file] can
    be read back from its own header: the [xmlLength] bytes at [xmlOffset]
    are the XML given, every byte from there up to
    [roundUp(xmlOffset + xmlLength, 8)] is zero, and the bytes from that
    offset to the end of the file are the payload given. *)
Theorem X5_e57_file_reads_back (xml pd : list byte) :
  Bytes.len xml + Bytes.len pd < 2 ^ 64 - 56 ->
  exists w h,
    E57Files.create_e57_file xml pd = Some w
    /\ Spec.decode_fields (file_bytes w) = Some h
    /\ take (Z.to_nat (Spec.xmlLength h))
         (drop (Z.to_nat (Spec.xmlOffset h)) (file_bytes w)) = xml
    /\ (let stop := Spec.xmlOffset h + Spec.xmlLength h in
        let start := Spec.roundUp stop 8 in
        take (Z.to_nat (start - stop)) (drop (Z.to_nat stop) (file_bytes w))
          = Bytes.zeros (start - stop)
        /\ drop (Z.to_nat start) (file_bytes w) = pd).
Proof.
  intros Hb.
  pose proof (roundUp_bounds 8 (48 + Bytes.len xml) ltac:(lia)) as Hr.
  pose proof (len_nonneg xml) as Hx.
  destruct (E57Files_written_fields xml pd) as (header & Hl & Hw & Hd).
  { rewrite align_conditional_roundUp by lia. lia. }
  rewrite align_conditional_roundUp in * by lia.
  set (bo := Spec.roundUp (48 + Bytes.len xml) 8) in *.
  set (pad := Bytes.zeros (bo - (48 + Bytes.len xml))) in *.
  eexists _, _. split; [exact Hw|]. split; [exact Hd|].
  cbn [file_bytes Spec.xmlOffset Spec.xmlLength]. fold bo.
  destruct (sections_of_layout header xml pad pd) as (S1 & S2 & S3).
  assert (Hpad : length pad = Z.to_nat (bo - (48 + Bytes.len xml))).
  { subst pad. unfold Bytes.zeros. by rewrite repeat_length. }
  rewrite Hl in S1, S2, S3. rewrite Hpad in S2, S3.
  split; [|split].
  - rewrite len_to_nat. exact S1.
  - replace (Z.to_nat (48 + Bytes.len xml)) with (48 + length xml)%nat
      by (unfold Bytes.len; lia).
    exact S2.
  - replace (Z.to_nat bo)
      with (48 + length xml + Z.to_nat (bo - (48 + Bytes.len xml)))%nat
      by (unfold Bytes.len in *; lia).
    exact S3.
Qed.

(** X5 at the malformed document and the three-point payload. *)
Lemma X5_e57_file_reads_back_witness :
  Bytes.len E57Files.create_malformed_xml
    + Bytes.len (default [] E57Files.create_point_data) < 2 ^ 64 - 56
  /\ exists w h,
    E57Files.create_e57_file E57Files.create_malformed_xml
      (default [] E57Files.create_point_data) = Some w
    /\ Spec.decode_fields (file_bytes w) = Some h
    /\ take (Z.to_nat (Spec.xmlLength h))
         (drop (Z.to_nat (Spec.xmlOffset h)) (file_bytes w))
       = E57Files.create_malformed_xml
    /\ (let stop := Spec.xmlOffset h + Spec.xmlLength h in
        let start := Spec.roundUp stop 8 in
        take (Z.to_nat (start - stop)) (drop (Z.to_nat stop) (file_bytes w))
          = Bytes.zeros (start - stop)
        /\ drop (Z.to_nat start) (file_bytes w)
           = default [] E57Files.create_point_data).
Proof.
  split; [vm_compute; reflexivity|].
  apply (X5_e57_file_reads_back E57Files.create_malformed_xml
           (default [] E57Files.create_point_data)).
  vm_compute; reflexivity.
Defined.

(** ** What every written header says *)

Section PrefixFacts.
Import Bytes.

Lemma uint_at_take (n off m : nat) (l : list byte) :
  (off + n <= m)%nat -> (m <= length l)%nat ->
  uint_at n off (take m l) = uint_at n off l.
Proof.
  intros H1 H2. unfold uint_at.
  rewrite !decide_True by (rewrite ?length_take; lia).
  do 2 f_equal. apply list_eq. intros i.
  rewrite !lookup_take, !lookup_drop, lookup_take.
  case_decide; [|done]. by rewrite decide_True by lia.
Qed.

(** Both header updates leave the signature and version words alone, so
    every written file opens with the sixteen bytes the header builder
    produced. *)
Lemma E57Files_written_prefix (xml pd : list byte) :
  Layout.align_conditional 8 (48 + len xml) + len pd < 2 ^ 64 ->
  exists w h0,
    E57Files.create_e57_file xml pd = Some w
    /\ E57Files.create_e57_header = Some (h0, 48)
    /\ take 16 (file_bytes w) = take 16 h0.
Proof.
  intros Hb.
  destruct (E57Files_create_e57_file_spec xml pd Hb)
    as (h0 & header & Hh & Hu & Hw).
  destruct E57Files_header_fields as (h0' & Hh' & Hlen & _).
  assert (h0' = h0) as -> by congruence.
  pose proof (len_nonneg xml) as Hx. pose proof (len_nonneg pd) as Hp.
  pose proof (roundUp_bounds 8 (48 + len xml) ltac:(lia)) as Hr.
  rewrite align_conditional_roundUp in * by lia.
  destruct (E57Files_update_header_spec h0
              (Spec.roundUp (48 + len xml) 8 + len pd) (len xml))
    as (header' & Hu' & Hl & _ & _ & Hframe); [done|lia|lia|].
  pose proof (eq_trans (eq_sym Hu') Hu) as E. injection E as ->.
  eexists _, h0. split; [exact Hw|]. split; [done|].
  cbn [file_bytes]. rewrite take_app_le by lia.
  apply list_eq. intros i. rewrite !lookup_take.
  case_decide; [|done]. apply Hframe; lia.
Qed.

Lemma TestFiles_written_prefix (xml pd : list byte) :
  Layout.align_padding 1024 (48 + len xml) + len pd < 2 ^ 64 ->
  exists w h0,
    TestFiles.create_e57_file xml pd = Some w
    /\ TestFiles.create_e57_header = Some h0
    /\ take 16 (file_bytes w) = take 16 h0.
Proof.
  intros Hb.
  destruct (TestFiles_create_e57_file_spec xml pd Hb)
    as (h0 & header & Hh & Hu & Hw).
  destruct TestFiles_header_fields as (h0' & Hh' & Hlen & _).
  assert (h0' = h0) as -> by congruence.
  pose proof (len_nonneg xml) as Hx. pose proof (len_nonneg pd) as Hp.
  pose proof (roundUp_bounds 1024 (48 + len xml) ltac:(lia)) as Hr.
  rewrite align_padding_roundUp in *.
  destruct (TestFiles_update_header_spec h0
              (Spec.roundUp (48 + len xml) 1024 + len pd) (len xml))
    as (header' & Hu' & Hl & _ & _ & Hframe); [done|lia|lia|].
  pose proof (eq_trans (eq_sym Hu') Hu) as E. injection E as ->.
  eexists _, h0. split; [exact Hw|]. split; [done|].
  cbn [file_bytes]. rewrite take_app_le by lia.
  apply list_eq. intros i. rewrite !lookup_take.
  case_decide; [|done]. apply Hframe; lia.
Qed.

(** What the first sixteen bytes of a file say, given that they are those
    of a built header. *)
Lemma prefix_fields (file h0 : list byte) :
  (16 <= length file)%nat -> (16 <= length h0)%nat ->
  take 16 file = take 16 h0 ->
  take 8 file = take 8 h0
  /\ u32_at 8 file = u32_at 8 h0 /\ u32_at 12 file = u32_at 12 h0.
Proof.
  intros Hf Hh E. split; [|split].
  - change 8%nat with (8 `min` 16)%nat.
    by rewrite <- !take_take, E.
  - unfold u32_at.
    rewrite <- (uint_at_take 4 8 16 file), <- (uint_at_take 4 8 16 h0) by lia.
    by rewrite E.
  - unfold u32_at.
    rewrite <- (uint_at_take 4 12 16 file), <- (uint_at_take 4 12 16 h0) by lia.
    by rewrite E.
Qed.

End PrefixFacts.

(** X6. Every file written by [create_test_e57_files.py]'s
    [create_e57_file] opens with the signature [ASTM-E57] and version 1.0,
    and its header declares the actual length of the file, XML offset 48,
    the length of the XML given, and page size 1024. *)
Theorem X6_e57_file_header_describes_file (xml pd : list byte) :
  Bytes.len xml + Bytes.len pd < 2 ^ 64 - 56 ->
  exists w h,
    E57Files.create_e57_file xml pd = Some w
    /\ Spec.decode_fields (file_bytes w) = Some h
    /\ take 8 (file_bytes w) = Bytes.lit "ASTM-E57"
    /\ Bytes.u32_at 8 (file_bytes w) = Some 1
    /\ Bytes.u32_at 12 (file_bytes w) = Some 0
    /\ Spec.filePhysicalLength h = Bytes.len (file_bytes w)
    /\ Spec.xmlOffset h = 48
    /\ Spec.xmlLength h = Bytes.len xml
    /\ Spec.pageSize h = 1024.
Proof.
  intros Hb.
  pose proof (roundUp_bounds 8 (48 + Bytes.len xml) ltac:(lia)) as Hr.
  pose proof (len_nonneg xml) as Hx.
  assert (Hb' : Layout.align_conditional 8 (48 + Bytes.len xml)
                + Bytes.len pd < 2 ^ 64)
    by (rewrite align_conditional_roundUp by lia; lia).
  destruct (E57Files_written_fields xml pd Hb') as (header & Hl & Hw & Hd).
  destruct (E57Files_written_prefix xml pd Hb') as (w' & h0 & Hw' & Hh & Hp).
  rewrite Hw in Hw'. injection Hw' as <-. cbn [file_bytes] in Hp.
  destruct E57Files_header_fields
    as (h0' & Hh' & Hlen & Hsig & Hv1 & Hv0 & _).
  assert (h0' = h0) as -> by congruence.
  eexists _, _. split; [exact Hw|]. split; [exact Hd|].
  cbn [file_bytes Spec.filePhysicalLength Spec.xmlOffset Spec.xmlLength
       Spec.pageSize].
  pose proof (fun Ha Hb => prefix_fields _ h0 Ha Hb Hp) as P.
  destruct P as (P1 & P2 & P3); [rewrite length_app; lia|lia|].
  rewrite P1, P2, P3, Hsig, Hv1, Hv0.
  do 3 (split; [reflexivity|]). split; [|done].
  rewrite align_conditional_roundUp in * by lia.
  rewrite !len_app, zeros_length.
  assert (Bytes.len header = 48) as -> by (unfold Bytes.len; by rewrite Hl).
  lia.
Qed.

(** X6 at the malformed document and the three-point payload. *)
Lemma X6_e57_file_header_describes_file_witness :
  Bytes.len E57Files.create_malformed_xml
    + Bytes.len (default [] E57Files.create_point_data) < 2 ^ 64 - 56
  /\ exists w h,
    E57Files.create_e57_file E57Files.create_malformed_xml
      (default [] E57Files.create_point_data) = Some w
    /\ Spec.decode_fields (file_bytes w) = Some h
    /\ take 8 (file_bytes w) = Bytes.lit "ASTM-E57"
    /\ Bytes.u32_at 8 (file_bytes w) = Some 1
    /\ Bytes.u32_at 12 (file_bytes w) = Some 0
    /\ Spec.filePhysicalLength h = Bytes.len (file_bytes w)
    /\ Spec.xmlOffset h = 48
    /\ Spec.xmlLength h = Bytes.len E57Files.create_malformed_xml
    /\ Spec.pageSize h = 1024.
Proof.
  split; [vm_compute; reflexivity|].
  apply (X6_e57_file_header_describes_file E57Files.create_malformed_xml
           (default [] E57Files.create_point_data)).
  vm_compute; reflexivity.
Defined.

(** ** Edge cases of the 8-byte writer *)

(** X7. With an empty payload, [create_test_e57_files.py]'s
    [create_e57_file] writes a file that ends at the binary offset: its
    length is the binary offset, a multiple of 8, and so is the length its
    header declares. *)
Theorem X7_e57_empty_payload_ends_at_binary_offset (xml : list byte) :
  Bytes.len xml < 2 ^ 64 - 56 ->
  exists w h,
    E57Files.create_e57_file xml [] = Some w
    /\ Spec.decode_fields (file_bytes w) = Some h
    /\ payload_length w = 0
    /\ Bytes.len (file_bytes w) = binary_offset w
    /\ Spec.filePhysicalLength h = binary_offset w
    /\ Bytes.len (file_bytes w) mod 8 = 0
    /\ drop (Z.to_nat (binary_offset w)) (file_bytes w) = [].
Proof.
  intros Hb.
  pose proof (roundUp_bounds 8 (48 + Bytes.len xml) ltac:(lia)) as Hr.
  pose proof (roundUp_aligned 8 (48 + Bytes.len xml) ltac:(lia)) as Ha.
  pose proof (len_nonneg xml) as Hx.
  destruct (E57Files_written_fields xml []) as (header & Hl & Hw & Hd).
  { rewrite align_conditional_roundUp by lia.
    change (Bytes.len (@nil byte)) with 0. lia. }
  rewrite align_conditional_roundUp in * by lia.
  eexists _, _. split; [exact Hw|]. split; [exact Hd|].
  cbn [file_bytes payload_length binary_offset Spec.filePhysicalLength].
  assert (Hlen : Bytes.len (header ++ xml
                   ++ Bytes.zeros (Spec.roundUp (48 + Bytes.len xml) 8
                                   - (48 + Bytes.len xml)) ++ [])
                 = Spec.roundUp (48 + Bytes.len xml) 8).
  { rewrite !len_app, zeros_length.
    assert (Bytes.len header = 48) as -> by (unfold Bytes.len; by rewrite Hl).
    change (Bytes.len (@nil byte)) with 0. lia. }
  split; [reflexivity|]. split; [exact Hlen|].
  split; [unfold Bytes.len; cbn [length]; lia|].
  split; [rewrite Hlen; exact Ha|].
  apply drop_ge. unfold Bytes.len in *. lia.
Qed.

(** X7 at the malformed document. *)
Lemma X7_e57_empty_payload_ends_at_binary_offset_witness :
  Bytes.len E57Files.create_malformed_xml < 2 ^ 64 - 56
  /\ exists w h,
    E57Files.create_e57_file E57Files.create_malformed_xml [] = Some w
    /\ Spec.decode_fields (file_bytes w) = Some h
    /\ payload_length w = 0
    /\ Bytes.len (file_bytes w) = binary_offset w
    /\ Spec.filePhysicalLength h = binary_offset w
    /\ Bytes.len (file_bytes w) mod 8 = 0
    /\ drop (Z.to_nat (binary_offset w)) (file_bytes w) = [].
Proof.
  split; [vm_compute; reflexivity|].
  apply (X7_e57_empty_payload_ends_at_binary_offset
           E57Files.create_malformed_xml).
  vm_compute; reflexivity.
Defined.

(** X8. When the header and the XML together already end on an 8-byte
    boundary, [create_test_e57_files.py]'s [create_e57_file] writes no
    padding: the payload follows the XML directly, at offset
    [48 + len(xml)]. *)
Theorem X8_e57_aligned_xml_gets_no_padding (xml pd : list byte) :
  (48 + Bytes.len xml) mod 8 = 0 ->
  Bytes.len xml + Bytes.len pd < 2 ^ 64 - 56 ->
  exists w header,
    E57Files.create_e57_file xml pd = Some w
    /\ length header = 48%nat
    /\ file_bytes w = header ++ xml ++ pd
    /\ binary_offset w = 48 + Bytes.len xml
    /\ Bytes.len (file_bytes w) = 48 + Bytes.len xml + Bytes.len pd.
Proof.
  intros Hal Hb.
  pose proof (proj2 (roundUp_fixed 8 (48 + Bytes.len xml) ltac:(lia)) Hal)
    as Hfix.
  pose proof (len_nonneg xml) as Hx.
  destruct (E57Files_written_fields xml pd) as (header & Hl & Hw & _).
  { rewrite align_conditional_roundUp by lia. lia. }
  rewrite align_conditional_roundUp in * by lia. rewrite Hfix in Hw.
  rewrite Z.sub_diag in Hw. cbn [Bytes.zeros Z.to_nat repeat app] in Hw.
  eexists _, header. split; [exact Hw|]. split; [done|].
  cbn [file_bytes binary_offset]. do 2 (split; [reflexivity|]).
  rewrite !len_app, zeros_length.
  assert (Bytes.len header = 48) as -> by (unfold Bytes.len; by rewrite Hl).
  lia.
Qed.

(** X8 at an empty XML section and the three-point payload. *)
Lemma X8_e57_aligned_xml_gets_no_padding_witness :
  (48 + Bytes.len (@nil byte)) mod 8 = 0
  /\ Bytes.len (@nil byte)
       + Bytes.len (default [] E57Files.create_point_data) < 2 ^ 64 - 56
  /\ exists w header,
    E57Files.create_e57_file [] (default [] E57Files.create_point_data)
      = Some w
    /\ length header = 48%nat
    /\ file_bytes w = header ++ [] ++ default [] E57Files.create_point_data
    /\ binary_offset w = 48 + Bytes.len (@nil byte)
    /\ Bytes.len (file_bytes w)
       = 48 + Bytes.len (@nil byte)
         + Bytes.len (default [] E57Files.create_point_data).
Proof.
  split; [reflexivity|]. split; [vm_compute; reflexivity|].
  apply (X8_e57_aligned_xml_gets_no_padding []
           (default [] E57Files.create_point_data));
    [reflexivity|vm_compute; reflexivity].
Defined.

(** ** The 1024-byte writer *)

(** X9. A file written by [create_test_files.py]'s [create_e57_file] holds
    the XML given at offset 48, then zero bytes up to the binary offset it
    prints, then the payload given up to the end of the file; that offset is
    a multiple of 1024 and at least 1024, and the file length is the total
    length it prints. *)
Theorem X9_test_files_layout (xml pd : list byte) :
  Bytes.len xml + Bytes.len pd < 2 ^ 64 - 2048 ->
  exists w,
    TestFiles.create_e57_file xml pd = Some w
    /\ take (length xml) (drop 48 (file_bytes w)) = xml
    /\ take (Z.to_nat (binary_offset w - (48 + Bytes.len xml)))
         (drop (48 + length xml) (file_bytes w))
       = Bytes.zeros (binary_offset w - (48 + Bytes.len xml))
    /\ drop (Z.to_nat (binary_offset w)) (file_bytes w) = pd
    /\ binary_offset w mod 1024 = 0
    /\ 1024 <= binary_offset w < 48 + Bytes.len xml + 1024
    /\ Bytes.len (file_bytes w) = total_length w.
Proof.
  intros Hb.
  pose proof (roundUp_bounds 1024 (48 + Bytes.len xml) ltac:(lia)) as Hr.
  pose proof (roundUp_aligned 1024 (48 + Bytes.len xml) ltac:(lia)) as Ha.
  pose proof (len_nonneg xml) as Hx.
  destruct (TestFiles_written_fields xml pd) as (header & Hl & Hw & _).
  { rewrite align_padding_roundUp. lia. }
  rewrite align_padding_roundUp in *.
  set (bo := Spec.roundUp (48 + Bytes.len xml) 1024) in *.
  set (pad := Bytes.zeros (bo - (48 + Bytes.len xml))) in *.
  eexists. split; [exact Hw|].
  cbn [file_bytes binary_offset total_length].
  destruct (sections_of_layout header xml pad pd) as (S1 & S2 & S3).
  assert (Hpad : length pad = Z.to_nat (bo - (48 + Bytes.len xml))).
  { subst pad. unfold Bytes.zeros. by rewrite repeat_length. }
  rewrite Hl in S1, S2, S3. rewrite Hpad in S2, S3.
  split; [exact S1|]. split; [exact S2|]. split; [|split; [done|split]].
  - replace (Z.to_nat bo)
      with (48 + length xml + Z.to_nat (bo - (48 + Bytes.len xml)))%nat
      by (unfold Bytes.len in *; lia).
    exact S3.
  - apply Z.mod_divide in Ha as [c Hc]; [|lia]. lia.
  - rewrite !len_app. fold pad.
    assert (Bytes.len header = 48) as -> by (unfold Bytes.len; by rewrite Hl).
    assert (Bytes.len pad = bo - (48 + Bytes.len xml)) as ->
      by (unfold Bytes.len in *; rewrite Hpad; lia).
    lia.
Qed.

(** X9 at the first XML document of the script and the three-point
    payload. *)
Lemma X9_test_files_layout_witness :
  Bytes.len TestFiles.create_compressed_vector_xml
    + Bytes.len (default [] TestFiles.create_point_data) < 2 ^ 64 - 2048
  /\ exists w,
    TestFiles.create_e57_file TestFiles.create_compressed_vector_xml
      (default [] TestFiles.create_point_data) = Some w
    /\ take (length TestFiles.create_compressed_vector_xml)
         (drop 48 (file_bytes w)) = TestFiles.create_compressed_vector_xml
    /\ take (Z.to_nat (binary_offset w
               - (48 + Bytes.len TestFiles.create_compressed_vector_xml)))
         (drop (48 + length TestFiles.create_compressed_vector_xml)
            (file_bytes w))
       = Bytes.zeros (binary_offset w
           - (48 + Bytes.len TestFiles.create_compressed_vector_xml))
    /\ drop (Z.to_nat (binary_offset w)) (file_bytes w)
       = default [] TestFiles.create_point_data
    /\ binary_offset w mod 1024 = 0
    /\ 1024 <= binary_offset w
         < 48 + Bytes.len TestFiles.create_compressed_vector_xml + 1024
    /\ Bytes.len (file_bytes w) = total_length w.
Proof.
  split; [vm_compute; reflexivity|].
  apply (X9_test_files_layout TestFiles.create_compressed_vector_xml
           (default [] TestFiles.create_point_data)).
  vm_compute; reflexivity.
Defined.

(** X10. Every file written by [create_test_files.py]'s [create_e57_file]
    opens with the signature [ASTM-E57] and version 1.0; the u64 at offset
    24 holds the length of the file and the u64 at offset 40 the length of
    the XML given, while the u64s at offsets 16 and 32 are zero. *)
Theorem X10_test_files_header_contents (xml pd : list byte) :
  Bytes.len xml + Bytes.len pd < 2 ^ 64 - 2048 ->
  exists w,
    TestFiles.create_e57_file xml pd = Some w
    /\ take 8 (file_bytes w) = Bytes.lit "ASTM-E57"
    /\ Bytes.u32_at 8 (file_bytes w) = Some 1
    /\ Bytes.u32_at 12 (file_bytes w) = Some 0
    /\ Bytes.u64_at 16 (file_bytes w) = Some 0
    /\ Bytes.u64_at 24 (file_bytes w) = Some (Bytes.len (file_bytes w))
    /\ Bytes.u64_at 32 (file_bytes w) = Some 0
    /\ Bytes.u64_at 40 (file_bytes w) = Some (Bytes.len xml).
Proof.
  intros Hb.
  pose proof (roundUp_bounds 1024 (48 + Bytes.len xml) ltac:(lia)) as Hr.
  pose proof (len_nonneg xml) as Hx.
  assert (Hb' : Layout.align_padding 1024 (48 + Bytes.len xml)
                + Bytes.len pd < 2 ^ 64)
    by (rewrite align_padding_roundUp; lia).
  destruct (TestFiles_written_fields xml pd Hb') as (header & Hl & Hw & Hd).
  destruct (TestFiles_written_prefix xml pd Hb') as (w' & h0 & Hw' & Hh & Hp).
  rewrite Hw in Hw'. injection Hw' as <-. cbn [file_bytes] in Hp.
  destruct TestFiles_header_fields
    as (h0' & Hh' & Hlen & Hsig & Hv1 & Hv0 & _).
  assert (h0' = h0) as -> by congruence.
  eexists. split; [exact Hw|]. cbn [file_bytes].
  pose proof (fun Ha Hb => prefix_fields _ h0 Ha Hb Hp) as P.
  destruct P as (P1 & P2 & P3); [rewrite length_app; lia|lia|].
  rewrite P1, P2, P3, Hsig, Hv1, Hv0.
  do 3 (split; [reflexivity|]).
  unfold Spec.decode_fields in Hd.
  destruct (Bytes.u64_at 16 _) as [a|]; [|done].
  cbn [mbind option_bind] in Hd.
  destruct (Bytes.u64_at 24 _) as [b|]; [|done].
  cbn [mbind option_bind] in Hd.
  destruct (Bytes.u64_at 32 _) as [c|]; [|done].
  cbn [mbind option_bind] in Hd.
  destruct (Bytes.u64_at 40 _) as [d|]; [|done].
  cbn [mbind option_bind] in Hd.
  injection Hd as -> -> -> ->.
  split; [reflexivity|]. split; [|split; reflexivity]. f_equal.
  rewrite align_padding_roundUp in *.
  rewrite !len_app, zeros_length.
  assert (Bytes.len header = 48) as -> by (unfold Bytes.len; by rewrite Hl).
  lia.
Qed.

(** X10 at the first XML document of the script and the three-point
    payload. *)
Lemma X10_test_files_header_contents_witness :
  Bytes.len TestFiles.create_compressed_vector_xml
    + Bytes.len (default [] TestFiles.create_point_data) < 2 ^ 64 - 2048
  /\ exists w,
    TestFiles.create_e57_file TestFiles.create_compressed_vector_xml
      (default [] TestFiles.create_point_data) = Some w
    /\ take 8 (file_bytes w) = Bytes.lit "ASTM-E57"
    /\ Bytes.u32_at 8 (file_bytes w) = Some 1
    /\ Bytes.u32_at 12 (file_bytes w) = Some 0
    /\ Bytes.u64_at 16 (file_bytes w) = Some 0
    /\ Bytes.u64_at 24 (file_bytes w) = Some (Bytes.len (file_bytes w))
    /\ Bytes.u64_at 32 (file_bytes w) = Some 0
    /\ Bytes.u64_at 40 (file_bytes w)
       = Some (Bytes.len TestFiles.create_compressed_vector_xml).
Proof.
  split; [vm_compute; reflexivity|].
  apply (X10_test_files_header_contents
           TestFiles.create_compressed_vector_xml
           (default [] TestFiles.create_point_data)).
  vm_compute; reflexivity.
Defined.

(** ** The three point encoders *)

Section EncoderFacts.
Import Float32.

(** The loop is [struct.pack] of all coordinates at once, appended to the
    buffer. *)
Lemma extend_packed_mapM (cs : list pyfloat) (data : list byte) :
  E57Files.extend_packed data cs =
  bss ← mapM pack_f cs; Some (data ++ concat bss).
Proof.
  revert data. induction cs as [|c cs IH]; intros data.
  - cbn. by rewrite app_nil_r.
  - cbn [E57Files.extend_packed mapM]. destruct (pack_f c) as [bc|]; [|done].
    cbn [mbind option_bind mret option_ret]. rewrite IH.
    destruct (mapM pack_f cs) as [bss|]; [|done].
    cbn [mbind option_bind concat]. by rewrite <- app_assoc.
Qed.

Lemma concat_single_bytes_length (cs : list pyfloat) :
  length (concat (map single_bytes cs)) = (4 * length cs)%nat.
Proof.
  induction cs as [|c cs IH]; [done|].
  cbn [map concat length]. rewrite length_app, single_bytes_length, IH. lia.
Qed.

Lemma test_files_extend_packed (pts : list (pyfloat * pyfloat * pyfloat))
    (data : list byte) :
  TestFiles.extend_packed data pts =
  E57Files.extend_packed data (Spec.coordinates pts).
Proof.
  revert data. induction pts as [|[[x y] z] pts IH]; intros data; [done|].
  cbn [TestFiles.extend_packed Spec.coordinates flat_map app fst snd
       E57Files.extend_packed].
  fold (Spec.coordinates pts).
  unfold pack_fs. rewrite decide_True by done. cbn [mapM].
  destruct (pack_f x) as [bx|]; [|done].
  cbn [mbind option_bind mret option_ret].
  destruct (pack_f y) as [by_|]; [|done].
  cbn [mbind option_bind mret option_ret].
  destruct (pack_f z) as [bz|]; [|done].
  cbn [mbind option_bind mret option_ret concat].
  rewrite IH. by rewrite app_nil_r, !app_assoc.
Qed.

End EncoderFacts.

(** X11. The three ways the scripts encode points agree on every input:
    the triple-wise loop of [create_test_files.py] and a single
    [struct.pack] of all coordinates (as in
    [create_test_e57_codec_fixed.py]) give the same bytes as the
    coordinate-wise loop of [create_test_e57_files.py], and fail on the same
    inputs. *)
Theorem X11_point_encoders_agree
    (pts : list (pyfloat * pyfloat * pyfloat)) (xs : list pyfloat) :
  TestFiles.extend_packed [] pts
    = E57Files.extend_packed [] (Spec.coordinates pts)
  /\ Float32.pack_fs (length xs) xs = E57Files.extend_packed [] xs
  /\ TestFiles.create_point_data = E57Files.create_point_data.
Proof.
  split; [apply test_files_extend_packed|]. split.
  - rewrite extend_packed_mapM. unfold Float32.pack_fs.
    rewrite decide_True by done.
    by destruct (mapM Float32.pack_f xs).
  - unfold TestFiles.create_point_data, E57Files.create_point_data.
    by rewrite test_files_extend_packed.
Qed.

(** X12. The encoding loop of [create_point_data] raises exactly when some
    coordinate is finite but rounds beyond the single-precision range;
    otherwise it appends four bytes per coordinate, in order, and leaves the
    bytes already in the buffer in place. *)
Theorem X12_encoding_loop_outcome (data : list byte) (cs : list pyfloat) :
  E57Files.extend_packed data cs =
    (if forallb Float32.packable cs
     then Some (data ++ concat (map Float32.single_bytes cs))
     else None)
  /\ forall out, E57Files.extend_packed data cs = Some out ->
       take (length data) out = data
       /\ length out = (length data + 4 * length cs)%nat.
Proof.
  assert (E : E57Files.extend_packed data cs =
              if forallb Float32.packable cs
              then Some (data ++ concat (map Float32.single_bytes cs))
              else None).
  { destruct (forallb Float32.packable cs) eqn:H.
    - by apply extend_packed_concat.
    - by apply extend_packed_overflow. }
  split; [exact E|]. intros out Hout. rewrite E in Hout.
  destruct (forallb Float32.packable cs); [|done].
  injection Hout as <-. split.
  - by rewrite take_app_length.
  - rewrite length_app, concat_single_bytes_length. lia.
Qed.

(** ** The scripts on a file system *)

Section FSFacts.

Lemma write_file_Some (path : string) (content : list byte) (s : FS.state) :
  FS.dirname path = EmptyString \/ FS.dirname path ∈ FS.dirs s ->
  path ∉ FS.dirs s ->
  FS.write_file path content s =
  Some {| FS.dirs := FS.dirs s;
          FS.files := <[path := content]> (FS.files s) |}.
Proof. intros H1 H2. unfold FS.write_file. by rewrite decide_True. Qed.

Lemma write_file_None (path : string) (content : list byte) (s : FS.state) :
  FS.dirname path <> EmptyString -> FS.dirname path ∉ FS.dirs s ->
  FS.write_file path content s = None.
Proof.
  intros H1 H2. unfold FS.write_file. rewrite decide_False; [done|].
  intros [[H|H] _]; done.
Qed.

Lemma makedirs_Some (name : string) (s : FS.state) :
  name ∉ dom (FS.files s) ->
  FS.makedirs name s =
  Some {| FS.dirs := {[name]} ∪ FS.dirs s; FS.files := FS.files s |}.
Proof. intros H. unfold FS.makedirs. by rewrite decide_False. Qed.

(** Writing a file inside [test_data] once that directory is there. *)
Lemma write_under_test_data (path : string) (content : list byte)
    (ds : gset string) (m : gmap string (list byte)) :
  FS.dirname path = "test_data" -> path <> "test_data" -> path ∉ ds ->
  FS.write_file path content
    {| FS.dirs := {["test_data"]} ∪ ds; FS.files := m |} =
  Some {| FS.dirs := {["test_data"]} ∪ ds;
          FS.files := <[path := content]> m |}.
Proof.
  intros Hd Hne Hnd. rewrite write_file_Some; [done| |]; cbn [FS.dirs].
  - right. rewrite Hd. apply elem_of_union_l. by apply elem_of_singleton.
  - rewrite not_elem_of_union, not_elem_of_singleton. by split.
Qed.

(** The fixtures of [create_test_e57_files.py] exist. *)
Lemma e57_fixtures :
  exists pd w1 w2,
    E57Files.create_point_data = Some pd
    /\ E57Files.create_e57_file E57Files.create_compressed_vector_xml pd
       = Some w1
    /\ E57Files.create_e57_file E57Files.create_malformed_xml pd = Some w2
    /\ file_bytes w1 <> file_bytes w2.
Proof.
  eexists _, _, _. split; [vm_compute; reflexivity|].
  split; [vm_compute; reflexivity|]. split; [vm_compute; reflexivity|].
  intros E. apply (f_equal length) in E. vm_compute in E. discriminate.
Qed.

(** The fixtures of [create_test_files.py] exist. *)
Lemma tf_fixtures :
  exists pd w1 w2,
    TestFiles.create_point_data = Some pd
    /\ TestFiles.create_e57_file TestFiles.create_compressed_vector_xml pd
       = Some w1
    /\ TestFiles.create_e57_file
         TestFiles.create_malformed_compressed_vector_xml pd = Some w2.
Proof.
  eexists _, _, _. split; [vm_compute; reflexivity|].
  split; vm_compute; reflexivity.
Qed.

(** What [main] of [create_test_e57_files.py] leaves behind. *)
Lemma e57_main_spec (s : FS.state) :
  "test_data" ∉ dom (FS.files s) ->
  "test_data/compressedvector_uncompressed_data.e57" ∉ FS.dirs s ->
  "test_data/malformed_compressedvector.e57" ∉ FS.dirs s ->
  "test_data/test_real_points.e57" ∉ FS.dirs s ->
  exists w1 w2,
    E57Files.compressedvector_uncompressed_data = Some w1
    /\ E57Files.malformed_compressedvector = Some w2
    /\ Scripts.e57_main s =
       Some {| FS.dirs := {["test_data"]} ∪ FS.dirs s;
               FS.files :=
                 <["test_data/test_real_points.e57" := file_bytes w1]>
                   (<["test_data/malformed_compressedvector.e57"
                        := file_bytes w2]>
                      (<["test_data/compressedvector_uncompressed_data.e57"
                           := file_bytes w1]> (FS.files s))) |}.
Proof.
  intros Hd H1 H2 H3.
  destruct e57_fixtures as (pd & w1 & w2 & Hpd & Hw1 & Hw2 & _).
  exists w1, w2. split; [|split].
  - unfold E57Files.compressedvector_uncompressed_data.
    rewrite Hpd. cbn [mbind option_bind]. by rewrite Hw1.
  - unfold E57Files.malformed_compressedvector.
    rewrite Hpd. cbn [mbind option_bind]. by rewrite Hw2.
  - unfold Scripts.e57_main, Scripts.e57_create_e57_file.
    rewrite makedirs_Some by done. cbn [mbind option_bind].
    rewrite Hpd. cbn [mbind option_bind]. rewrite Hw1, Hw2.
    cbn [mbind option_bind].
    do 2 (rewrite write_under_test_data by (reflexivity || done);
          cbn [mbind option_bind]).
    by rewrite write_under_test_data by (reflexivity || done).
Qed.

(** What [main] of [create_test_files.py] leaves behind. *)
Lemma tf_main_spec (s : FS.state) :
  "test_data" ∉ dom (FS.files s) ->
  "test_data/compressedvector_uncompressed_data.e57" ∉ FS.dirs s ->
  "test_data/malformed_compressedvector.e57" ∉ FS.dirs s ->
  exists w1 w2,
    TestFiles.compressedvector_uncompressed_data = Some w1
    /\ TestFiles.malformed_compressedvector = Some w2
    /\ Scripts.tf_main s =
       Some {| FS.dirs := {["test_data"]} ∪ FS.dirs s;
               FS.files :=
                 <["test_data/malformed_compressedvector.e57"
                     := file_bytes w2]>
                   (<["test_data/compressedvector_uncompressed_data.e57"
                        := file_bytes w1]> (FS.files s)) |}.
Proof.
  intros Hd H1 H2.
  destruct tf_fixtures as (pd & w1 & w2 & Hpd & Hw1 & Hw2).
  exists w1, w2. split; [|split].
  - unfold TestFiles.compressedvector_uncompressed_data.
    rewrite Hpd. cbn [mbind option_bind]. by rewrite Hw1.
  - unfold TestFiles.malformed_compressedvector.
    rewrite Hpd. cbn [mbind option_bind]. by rewrite Hw2.
  - unfold Scripts.tf_main, Scripts.tf_create_e57_file.
    rewrite makedirs_Some by done. cbn [mbind option_bind].
    rewrite Hpd. cbn [mbind option_bind]. rewrite Hw1, Hw2.
    cbn [mbind option_bind].
    rewrite write_under_test_data by (reflexivity || done).
    cbn [mbind option_bind].
    by rewrite write_under_test_data by (reflexivity || done).
Qed.

End FSFacts.

(** X13. On a file system where [test_data] is not a regular file and none
    of its three file names is a directory, [main] of
    [create_test_e57_files.py] creates the directory and leaves exactly
    three files changed: the valid fixture, the malformed fixture, and
    [test_real_points.e57], whose bytes are those of the valid fixture.
    Every other file is as before. *)
Theorem X13_e57_main_writes_three_files (s : FS.state) :
  "test_data" ∉ dom (FS.files s) ->
  "test_data/compressedvector_uncompressed_data.e57" ∉ FS.dirs s ->
  "test_data/malformed_compressedvector.e57" ∉ FS.dirs s ->
  "test_data/test_real_points.e57" ∉ FS.dirs s ->
  exists s' valid malformed,
    Scripts.e57_main s = Some s'
    /\ E57Files.compressedvector_uncompressed_data = Some valid
    /\ E57Files.malformed_compressedvector = Some malformed
    /\ FS.dirs s' = {["test_data"]} ∪ FS.dirs s
    /\ FS.files s' !! "test_data/compressedvector_uncompressed_data.e57"
       = Some (file_bytes valid)
    /\ FS.files s' !! "test_data/malformed_compressedvector.e57"
       = Some (file_bytes malformed)
    /\ FS.files s' !! "test_data/test_real_points.e57"
       = Some (file_bytes valid)
    /\ forall p,
         p <> "test_data/compressedvector_uncompressed_data.e57" ->
         p <> "test_data/malformed_compressedvector.e57" ->
         p <> "test_data/test_real_points.e57" ->
         FS.files s' !! p = FS.files s !! p.
Proof.
  intros Hd H1 H2 H3.
  destruct (e57_main_spec s Hd H1 H2 H3) as (w1 & w2 & E1 & E2 & Hm).
  eexists _, w1, w2. split; [exact Hm|]. do 2 (split; [done|]).
  cbn [FS.dirs FS.files]. split; [done|].
  split; [by rewrite !lookup_insert_ne, lookup_insert_eq by done|].
  split; [by rewrite lookup_insert_ne, lookup_insert_eq by done|].
  split; [by rewrite lookup_insert_eq|].
  intros p P1 P2 P3. by rewrite !lookup_insert_ne by done.
Qed.

(** X13 on the empty file system. *)
Lemma X13_e57_main_writes_three_files_witness :
  ("test_data" ∉ dom (FS.files FS.empty))
  /\ ("test_data/compressedvector_uncompressed_data.e57" ∉ FS.dirs FS.empty)
  /\ ("test_data/malformed_compressedvector.e57" ∉ FS.dirs FS.empty)
  /\ ("test_data/test_real_points.e57" ∉ FS.dirs FS.empty)
  /\ exists s' valid malformed,
    Scripts.e57_main FS.empty = Some s'
    /\ E57Files.compressedvector_uncompressed_data = Some valid
    /\ E57Files.malformed_compressedvector = Some malformed
    /\ FS.dirs s' = {["test_data"]} ∪ FS.dirs FS.empty
    /\ FS.files s' !! "test_data/compressedvector_uncompressed_data.e57"
       = Some (file_bytes valid)
    /\ FS.files s' !! "test_data/malformed_compressedvector.e57"
       = Some (file_bytes malformed)
    /\ FS.files s' !! "test_data/test_real_points.e57"
       = Some (file_bytes valid)
    /\ forall p,
         p <> "test_data/compressedvector_uncompressed_data.e57" ->
         p <> "test_data/malformed_compressedvector.e57" ->
         p <> "test_data/test_real_points.e57" ->
         FS.files s' !! p = FS.files FS.empty !! p.
Proof.
  assert (Hd : "test_data" ∉ dom (FS.files FS.empty))
    by (cbn; rewrite dom_empty_L; apply not_elem_of_empty).
  assert (He : forall p : string, p ∉ FS.dirs FS.empty)
    by (intros p; cbn; apply not_elem_of_empty).
  do 4 (split; [done|]).
  apply (X13_e57_main_writes_three_files FS.empty); done.
Defined.

(** X14. Running [main] of [create_test_e57_files.py] a second time
    changes nothing: the files are overwritten with the same bytes. *)
Theorem X14_e57_main_twice (s : FS.state) :
  "test_data" ∉ dom (FS.files s) ->
  "test_data/compressedvector_uncompressed_data.e57" ∉ FS.dirs s ->
  "test_data/malformed_compressedvector.e57" ∉ FS.dirs s ->
  "test_data/test_real_points.e57" ∉ FS.dirs s ->
  exists s', Scripts.e57_main s = Some s' /\ Scripts.e57_main s' = Some s'.
Proof.
  intros Hd H1 H2 H3.
  destruct (e57_main_spec s Hd H1 H2 H3) as (w1 & w2 & E1 & E2 & Hm).
  eexists. split; [exact Hm|].
  match goal with |- Scripts.e57_main ?t = _ => set (s1 := t) end.
  destruct (e57_main_spec s1) as (w1' & w2' & E1' & E2' & Hm').
  - cbn [s1 FS.files]. rewrite !dom_insert_L, !not_elem_of_union,
      !not_elem_of_singleton. by repeat split.
  - cbn [s1 FS.dirs]. rewrite not_elem_of_union, not_elem_of_singleton.
    by split.
  - cbn [s1 FS.dirs]. rewrite not_elem_of_union, not_elem_of_singleton.
    by split.
  - cbn [s1 FS.dirs]. rewrite not_elem_of_union, not_elem_of_singleton.
    by split.
  - rewrite Hm'. assert (w1' = w1) as -> by congruence.
    assert (w2' = w2) as -> by congruence.
    f_equal. unfold s1. cbn [FS.dirs FS.files]. f_equal.
    + by rewrite (assoc_L (∪)), union_idemp_L.
    + apply map_eq. intros p.
      destruct (decide (p = "test_data/test_real_points.e57")) as [->|P3];
        [by rewrite !lookup_insert_eq|].
      rewrite !(lookup_insert_ne _ "test_data/test_real_points.e57") by done.
      destruct (decide (p = "test_data/malformed_compressedvector.e57"))
        as [->|P2]; [by rewrite !lookup_insert_eq|].
      rewrite !(lookup_insert_ne _ "test_data/malformed_compressedvector.e57")
        by done.
      destruct (decide
                  (p = "test_data/compressedvector_uncompressed_data.e57"))
        as [->|P1]; [by rewrite !lookup_insert_eq|].
      by rewrite !lookup_insert_ne by done.
Qed.

(** X14 on the empty file system. *)
Lemma X14_e57_main_twice_witness :
  ("test_data" ∉ dom (FS.files FS.empty))
  /\ ("test_data/compressedvector_uncompressed_data.e57" ∉ FS.dirs FS.empty)
  /\ ("test_data/malformed_compressedvector.e57" ∉ FS.dirs FS.empty)
  /\ ("test_data/test_real_points.e57" ∉ FS.dirs FS.empty)
  /\ exists s', Scripts.e57_main FS.empty = Some s'
               /\ Scripts.e57_main s' = Some s'.
Proof.
  assert (Hd : "test_data" ∉ dom (FS.files FS.empty))
    by (cbn; rewrite dom_empty_L; apply not_elem_of_empty).
  assert (He : forall p : string, p ∉ FS.dirs FS.empty)
    by (intros p; cbn; apply not_elem_of_empty).
  do 4 (split; [done|]).
  apply (X14_e57_main_twice FS.empty); done.
Defined.

(** The first fixtures of the two scripts differ, already in length. *)
Lemma fixtures_differ (a b : written) :
  TestFiles.compressedvector_uncompressed_data = Some a ->
  E57Files.compressedvector_uncompressed_data = Some b ->
  file_bytes a <> file_bytes b.
Proof.
  intros Ha Hb E.
  assert (H : (fun w => Bytes.len (file_bytes w))
                <$> TestFiles.compressedvector_uncompressed_data
              = (fun w => Bytes.len (file_bytes w))
                <$> E57Files.compressedvector_uncompressed_data).
  { rewrite Ha, Hb. cbn [fmap option_fmap option_map]. by rewrite E. }
  vm_compute in H. discriminate.
Qed.

(** So do their malformed fixtures. *)
Lemma malformed_fixtures_differ (a b : written) :
  TestFiles.malformed_compressedvector = Some a ->
  E57Files.malformed_compressedvector = Some b ->
  file_bytes a <> file_bytes b.
Proof.
  intros Ha Hb E.
  assert (H : (fun w => Bytes.len (file_bytes w))
                <$> TestFiles.malformed_compressedvector
              = (fun w => Bytes.len (file_bytes w))
                <$> E57Files.malformed_compressedvector).
  { rewrite Ha, Hb. cbn [fmap option_fmap option_map]. by rewrite E. }
  vm_compute in H. discriminate.
Qed.

(** X15. Run from the same working directory, [main] of
    [create_test_files.py] after [main] of [create_test_e57_files.py]
    replaces the valid and the malformed fixture with its own bytes, each
    different from what the first script had written under that name, and
    leaves [test_real_points.e57] as the first script wrote it. *)
Theorem X15_test_files_main_overwrites_e57_main (s : FS.state) :
  "test_data" ∉ dom (FS.files s) ->
  "test_data/compressedvector_uncompressed_data.e57" ∉ FS.dirs s ->
  "test_data/malformed_compressedvector.e57" ∉ FS.dirs s ->
  "test_data/test_real_points.e57" ∉ FS.dirs s ->
  exists s1 s2 e57_valid e57_malformed tf_valid tf_malformed,
    Scripts.e57_main s = Some s1
    /\ Scripts.tf_main s1 = Some s2
    /\ E57Files.compressedvector_uncompressed_data = Some e57_valid
    /\ E57Files.malformed_compressedvector = Some e57_malformed
    /\ FS.files s1 !! "test_data/compressedvector_uncompressed_data.e57"
       = Some (file_bytes e57_valid)
    /\ FS.files s1 !! "test_data/malformed_compressedvector.e57"
       = Some (file_bytes e57_malformed)
    /\ TestFiles.compressedvector_uncompressed_data = Some tf_valid
    /\ TestFiles.malformed_compressedvector = Some tf_malformed
    /\ FS.files s2 !! "test_data/compressedvector_uncompressed_data.e57"
       = Some (file_bytes tf_valid)
    /\ FS.files s2 !! "test_data/malformed_compressedvector.e57"
       = Some (file_bytes tf_malformed)
    /\ FS.files s2 !! "test_data/test_real_points.e57"
       = Some (file_bytes e57_valid)
    /\ file_bytes tf_valid <> file_bytes e57_valid
    /\ file_bytes tf_malformed <> file_bytes e57_malformed.
Proof.
  intros Hd H1 H2 H3.
  destruct (e57_main_spec s Hd H1 H2 H3) as (w1 & w2 & E1 & E2 & Hm).
  set (s1 := {| FS.dirs := {["test_data"]} ∪ FS.dirs s;
                FS.files :=
                  <["test_data/test_real_points.e57" := file_bytes w1]>
                    (<["test_data/malformed_compressedvector.e57"
                         := file_bytes w2]>
                       (<["test_data/compressedvector_uncompressed_data.e57"
                            := file_bytes w1]> (FS.files s))) |}) in *.
  destruct (tf_main_spec s1) as (v1 & v2 & T1 & T2 & Ht).
  - cbn [s1 FS.files]. rewrite !dom_insert_L, !not_elem_of_union,
      !not_elem_of_singleton. by repeat split.
  - cbn [s1 FS.dirs]. rewrite not_elem_of_union, not_elem_of_singleton.
    by split.
  - cbn [s1 FS.dirs]. rewrite not_elem_of_union, not_elem_of_singleton.
    by split.
  - eexists s1, _, w1, w2, v1, v2. split; [exact Hm|].
    split; [exact Ht|]. split; [done|]. split; [done|].
    split; [cbn [s1 FS.files];
            by rewrite !lookup_insert_ne, lookup_insert_eq by done|].
    split; [cbn [s1 FS.files];
            by rewrite lookup_insert_ne, lookup_insert_eq by done|].
    split; [exact T1|]. split; [exact T2|]. cbn [s1 FS.files].
    split; [by rewrite lookup_insert_ne, lookup_insert_eq by done|].
    split; [by rewrite lookup_insert_eq|].
    split; [by rewrite !lookup_insert_ne, lookup_insert_eq by done|].
    split; [by apply fixtures_differ|by apply malformed_fixtures_differ].
Qed.

(** X15 on the empty file system. *)
Lemma X15_test_files_main_overwrites_e57_main_witness :
  ("test_data" ∉ dom (FS.files FS.empty))
  /\ ("test_data/compressedvector_uncompressed_data.e57" ∉ FS.dirs FS.empty)
  /\ ("test_data/malformed_compressedvector.e57" ∉ FS.dirs FS.empty)
  /\ ("test_data/test_real_points.e57" ∉ FS.dirs FS.empty)
  /\ exists s1 s2 e57_valid e57_malformed tf_valid tf_malformed,
    Scripts.e57_main FS.empty = Some s1
    /\ Scripts.tf_main s1 = Some s2
    /\ E57Files.compressedvector_uncompressed_data = Some e57_valid
    /\ E57Files.malformed_compressedvector = Some e57_malformed
    /\ FS.files s1 !! "test_data/compressedvector_uncompressed_data.e57"
       = Some (file_bytes e57_valid)
    /\ FS.files s1 !! "test_data/malformed_compressedvector.e57"
       = Some (file_bytes e57_malformed)
    /\ TestFiles.compressedvector_uncompressed_data = Some tf_valid
    /\ TestFiles.malformed_compressedvector = Some tf_malformed
    /\ FS.files s2 !! "test_data/compressedvector_uncompressed_data.e57"
       = Some (file_bytes tf_valid)
    /\ FS.files s2 !! "test_data/malformed_compressedvector.e57"
       = Some (file_bytes tf_malformed)
    /\ FS.files s2 !! "test_data/test_real_points.e57"
       = Some (file_bytes e57_valid)
    /\ file_bytes tf_valid <> file_bytes e57_valid
    /\ file_bytes tf_malformed <> file_bytes e57_malformed.
Proof.
  assert (Hd : "test_data" ∉ dom (FS.files FS.empty))
    by (cbn; rewrite dom_empty_L; apply not_elem_of_empty).
  assert (He : forall p : string, p ∉ FS.dirs FS.empty)
    by (intros p; cbn; apply not_elem_of_empty).
  do 4 (split; [done|]).
  apply (X15_test_files_main_overwrites_e57_main FS.empty); done.
Defined.

Section CodecScriptFacts.

(** The two files of [create_test_e57_codec_fixed.py] exist. *)
Lemma cf_fixtures :
  exists w f,
    CodecFixed.create_e57_with_bitpack_codec = Some w
    /\ CodecFixed.create_e57_with_unsupported_codec = Some f.
Proof. eexists _, _. split; vm_compute; reflexivity. Qed.

End CodecScriptFacts.

(** X16. [create_e57_with_unsupported_codec] does not create its output
    directory: where [test_data] does not exist it raises, and no file is
    written. *)
Theorem X16_unsupported_codec_needs_directory (s : FS.state) :
  "test_data" ∉ FS.dirs s ->
  Scripts.cf_unsupported s = None.
Proof.
  intros Hd. destruct cf_fixtures as (w & f & _ & Hf).
  unfold Scripts.cf_unsupported. rewrite Hf. cbn [mbind option_bind].
  apply write_file_None; [discriminate|exact Hd].
Qed.

(** X16 on the empty file system. *)
Lemma X16_unsupported_codec_needs_directory_witness :
  ("test_data" ∉ FS.dirs FS.empty)
  /\ Scripts.cf_unsupported FS.empty = None.
Proof.
  assert (Hd : "test_data" ∉ FS.dirs FS.empty)
    by (cbn; apply not_elem_of_empty).
  split; [exact Hd|].
  apply (X16_unsupported_codec_needs_directory FS.empty Hd).
Defined.

(** X17. Run in the order of the script's [__main__] block, the bit-pack
    writer creates [test_data] and the unsupported-codec writer then
    succeeds: both files are stored with the bytes the writers produce, and
    every other file is as before. *)
Theorem X17_codec_main_writes_both_files (s : FS.state) :
  "test_data" ∉ dom (FS.files s) ->
  "test_data/e57_bitpack_codec_test_fixed.e57" ∉ FS.dirs s ->
  "test_data/e57_unsupported_codec_test_fixed.e57" ∉ FS.dirs s ->
  exists s' w f,
    Scripts.cf_main s = Some s'
    /\ CodecFixed.create_e57_with_bitpack_codec = Some w
    /\ CodecFixed.create_e57_with_unsupported_codec = Some f
    /\ FS.dirs s' = {["test_data"]} ∪ FS.dirs s
    /\ FS.files s' !! "test_data/e57_bitpack_codec_test_fixed.e57"
       = Some (file_bytes w)
    /\ FS.files s' !! "test_data/e57_unsupported_codec_test_fixed.e57"
       = Some f
    /\ forall p,
         p <> "test_data/e57_bitpack_codec_test_fixed.e57" ->
         p <> "test_data/e57_unsupported_codec_test_fixed.e57" ->
         FS.files s' !! p = FS.files s !! p.
Proof.
  intros Hd H1 H2. destruct cf_fixtures as (w & f & Hw & Hf).
  eexists _, w, f. split.
  { unfold Scripts.cf_main, Scripts.cf_bitpack, Scripts.cf_unsupported.
    rewrite Hw, Hf. cbn [mbind option_bind].
    change (FS.dirname "test_data/e57_bitpack_codec_test_fixed.e57")
      with "test_data".
    rewrite makedirs_Some by done. cbn [mbind option_bind].
    rewrite write_under_test_data by (reflexivity || done).
    cbn [mbind option_bind].
    by rewrite write_under_test_data by (reflexivity || done). }
  do 2 (split; [done|]). cbn [FS.dirs FS.files]. split; [done|].
  split; [by rewrite lookup_insert_ne, lookup_insert_eq by done|].
  split; [by rewrite lookup_insert_eq|].
  intros p P1 P2. by rewrite !lookup_insert_ne by done.
Qed.

(** X17 on the empty file system. *)
Lemma X17_codec_main_writes_both_files_witness :
  ("test_data" ∉ dom (FS.files FS.empty))
  /\ ("test_data/e57_bitpack_codec_test_fixed.e57" ∉ FS.dirs FS.empty)
  /\ ("test_data/e57_unsupported_codec_test_fixed.e57" ∉ FS.dirs FS.empty)
  /\ exists s' w f,
    Scripts.cf_main FS.empty = Some s'
    /\ CodecFixed.create_e57_with_bitpack_codec = Some w
    /\ CodecFixed.create_e57_with_unsupported_codec = Some f
    /\ FS.dirs s' = {["test_data"]} ∪ FS.dirs FS.empty
    /\ FS.files s' !! "test_data/e57_bitpack_codec_test_fixed.e57"
       = Some (file_bytes w)
    /\ FS.files s' !! "test_data/e57_unsupported_codec_test_fixed.e57"
       = Some f
    /\ forall p,
         p <> "test_data/e57_bitpack_codec_test_fixed.e57" ->
         p <> "test_data/e57_unsupported_codec_test_fixed.e57" ->
         FS.files s' !! p = FS.files FS.empty !! p.
Proof.
  assert (Hd : "test_data" ∉ dom (FS.files FS.empty))
    by (cbn; rewrite dom_empty_L; apply not_elem_of_empty).
  assert (He : forall p : string, p ∉ FS.dirs FS.empty)
    by (intros p; cbn; apply not_elem_of_empty).
  do 3 (split; [done|]).
  apply (X17_codec_main_writes_both_files FS.empty); done.
Defined.

(** ** The documents and the codec fixtures *)

(** X18. Each of the six XML documents the scripts compose, valid or
    malformed, is well-formed, has the root element [e57Root], and holds
    exactly one CompressedVector element, named [points], whose child
    elements are a [prototype] and a [codecs] element, in that order. *)
Theorem X18_every_document_is_well_formed :
  Forall
    (fun doc : string =>
       exists root cv,
         Xml.parse doc = Some root
         /\ Xml.tag_of root = "e57Root"
         /\ Xml.compressed_vectors root = [cv]
         /\ Xml.tag_of cv = "points"
         /\ map Xml.tag_of (Xml.child_elems cv) = ["prototype"; "codecs"])
    [ string_of_list_byte E57Files.create_compressed_vector_xml;
      string_of_list_byte E57Files.create_malformed_xml;
      string_of_list_byte TestFiles.create_compressed_vector_xml;
      string_of_list_byte TestFiles.create_malformed_compressed_vector_xml;
      CodecFixed.bitpack_xml 2048;
      CodecFixed.unsupported_xml ].
Proof.
  repeat (apply Forall_cons; split;
    [eexists _, _; split; [vm_compute; reflexivity|];
     split; [vm_compute; reflexivity|];
     split; [vm_compute; reflexivity|];
     split; vm_compute; reflexivity|]).
  constructor.
Qed.

(** X19. In the file of [create_e57_with_bitpack_codec] the header
    describes the file: it opens with the signature, declares the actual
    file length, XML offset 48, the length of the XML section and page size
    1024, and the binary offset is a multiple of that page size.  The
    replacement that is to update the file offset finds nothing to replace:
    the XML section is the first-pass document, which already carries the
    final binary offset. *)
Theorem X19_bitpack_file_is_consistent :
  exists w h,
    CodecFixed.create_e57_with_bitpack_codec = Some w
    /\ Spec.decode_fields (file_bytes w) = Some h
    /\ take 8 (file_bytes w) = Bytes.lit "ASTM-E57"
    /\ Bytes.u32_at 8 (file_bytes w) = Some 1
    /\ Bytes.u32_at 12 (file_bytes w) = Some 0
    /\ Spec.filePhysicalLength h = Bytes.len (file_bytes w)
    /\ Spec.xmlOffset h = 48
    /\ Spec.xmlLength h = Z.of_nat (String.length (xml_section w))
    /\ Spec.pageSize h = 1024
    /\ binary_offset w mod Spec.pageSize h = 0
    /\ xml_section w = CodecFixed.bitpack_xml (binary_offset w)
    /\ Str.replace (CodecFixed.bitpack_xml 2048)
         (Str.unq "fileOffset=`1648`") (Str.unq "fileOffset=`2048`")
       = CodecFixed.bitpack_xml 2048.
Proof.
  eexists _, _. split; [vm_compute; reflexivity|].
  split; [vm_compute; reflexivity|].
  repeat (split; [vm_compute; reflexivity|]). vm_compute. reflexivity.
Qed.

(** X20. The file of [create_e57_with_unsupported_codec] is a header
    followed by the XML and nothing else: the header declares the actual
    file length, and the XML section runs from offset 48 to the end of the
    file.  Its CompressedVector element declares three records and no file
    offset, and its one codec entry is tagged [zLibCodec]. *)
Theorem X20_unsupported_codec_file :
  exists f h root cv codecs entry,
    CodecFixed.create_e57_with_unsupported_codec = Some f
    /\ Spec.decode_fields f = Some h
    /\ take 8 f = Bytes.lit "ASTM-E57"
    /\ Spec.filePhysicalLength h = Bytes.len f
    /\ Spec.xmlOffset h = 48
    /\ Spec.xmlOffset h + Spec.xmlLength h = Bytes.len f
    /\ Spec.pageSize h = 1024
    /\ drop 48 f = Bytes.encode_utf8 CodecFixed.unsupported_xml
    /\ Xml.parse CodecFixed.unsupported_xml = Some root
    /\ Xml.compressed_vectors root = [cv]
    /\ Xml.attr "recordCount" cv = Some "3"
    /\ Xml.attr "fileOffset" cv = None
    /\ Xml.children_named "codecs" cv = [codecs]
    /\ Xml.child_elems codecs = [entry]
    /\ map Xml.tag_of (Xml.child_elems entry)
       = ["zLibCodec"; "recordCount"; "binarySection"].
Proof.
  eexists _, _, _, _, _, _. split; [vm_compute; reflexivity|].
  split; [vm_compute; reflexivity|].
  do 6 (split; [vm_compute; reflexivity|]).
  split; [vm_compute; reflexivity|].
  split; [vm_compute; reflexivity|].
  do 2 (split; [vm_compute; reflexivity|]).
  split; [vm_compute; reflexivity|].
  split; vm_compute; reflexivity.
Qed.
